(** * YTS movie notifier: admission filter, priority scorer, novelty tracker

    A shallow embedding of the three functions of
    [enhanced_movie_notifier.py] that carry the ranking and deduplication
    logic ([calculate_movie_score], [filter_high_rated_movies],
    [get_new_movies]) together with the simpler scorer of
    [movie_notifier.py], and the properties that hold of them.

    Modelling conventions.
    - A movie is a Python dict decoded from JSON.  Each key the code reads is
      a record field of option type; [None] means that the key is absent, so
      that [movie.get(k, d)] is [default d (k m)].
    - Ratings and scores are Python floats.  They are modelled as exact
      rationals ([Q]): comparisons of finite floats are exact, and the
      additions of small integer bonuses are taken without rounding.  What
      is proved of scores is how they compare, not what they are to the
      last digit.
    - [filter_high_rated_movies] writes the key ['_score'] into the dicts it
      was given.  Dicts are therefore objects in a store ([heap]) and lists
      hold references to them.
    - [datetime.now] reads the system clock.  The clock is a state: an
      infinite sequence of instants, one consumed per call.
    - [datetime.fromisoformat] is a library function; the development is
      parametric in it ([None] stands for a raised [ValueError]).
    - [list.sort(key=..., reverse=True)] is modelled as CPython implements
      it: reverse the list, sort it stably in ascending order, reverse it
      again. *)

From Stdlib Require Import Ascii ZArith QArith Lqa Lia Permutation Sorted.
From stdpp Require Import gmap strings list sorting.

Local Open Scope Z_scope.
#[local] Set Warnings "-clear-no-such-hyp".

(** ** Python values *)

(** The JSON scalars an identifier can be. *)
Inductive pyval : Type :=
  | PyNone
  | PyBool (b : bool)
  | PyInt (z : Z)
  | PyStr (s : string).

(** Truth value of a Python object, as tested by [if x] and [x and y]. *)
Definition truthy (v : pyval) : bool :=
  match v with
  | PyNone => false
  | PyBool b => b
  | PyInt z => negb (z =? 0)
  | PyStr s => negb (String.eqb s "")
  end.

(** Elements of a Python set are identified up to [==] and [hash]:
    [True == 1] and [False == 0]. *)
Definition pykey : Type := option (Z + string).

Definition key_of (v : pyval) : pykey :=
  match v with
  | PyNone => None
  | PyBool b => Some (inl (if b then 1 else 0))
  | PyInt z => Some (inl z)
  | PyStr s => Some (inr s)
  end.

(** ** Strings *)

Module Str.

(** [c.isdigit()] on ASCII text. *)
Definition isdigit (c : ascii) : bool :=
  let n := nat_of_ascii c in (48 <=? n)%nat && (n <=? 57)%nat.

Definition lower_char (c : ascii) : ascii :=
  let n := nat_of_ascii c in
  if (65 <=? n)%nat && (n <=? 90)%nat then ascii_of_nat (n + 32) else c.

(** [s.lower()] on ASCII text. *)
Fixpoint lower (s : string) : string :=
  match s with
  | EmptyString => EmptyString
  | String c s' => String (lower_char c) (lower s')
  end.

(** [p in s] for strings: [p] occurs as a contiguous substring of [s]. *)
Fixpoint contains (p s : string) : bool :=
  String.prefix p s ||
  match s with
  | EmptyString => false
  | String _ s' => contains p s'
  end.

(** [any(c.isdigit() for c in s)] *)
Fixpoint any_digit (s : string) : bool :=
  match s with
  | EmptyString => false
  | String c s' => isdigit c || any_digit s'
  end.

(** [any(p in s for p in ps)] *)
Definition any_in (ps : list string) (s : string) : bool :=
  existsb (fun p => contains p s) ps.

(** [s.replace('Z', '+00:00')] *)
Fixpoint replace_Z (s : string) : string :=
  match s with
  | EmptyString => EmptyString
  | String c s' =>
      if Ascii.eqb c "Z"%char then String.append "+00:00" (replace_Z s')
      else String c (replace_Z s')
  end.

End Str.

(** ** Catalog entries *)

(** One distribution variant (an element of [movie['torrents']]); the key
    ['size'] is the field [size_label]. *)
Record torrent : Type := mkTorrent {
  quality : option string;
  size_label : option string;
  seeds : option Z
}.

Record movie : Type := mkMovie {
  id : option pyval;
  title : option string;
  year : option Z;
  rating : option Q;
  genres : option (list string);
  date_uploaded : option string;
  torrents : option (list torrent);
  _score : option Q
}.

(** [movie.get('rating', 0)] and the like. *)
Definition get_rating (m : movie) : Q := default 0%Q (rating m).
Definition get_year (m : movie) : Z := default 0 (year m).
Definition get_genres (m : movie) : gset string :=
  list_to_set (default [] (genres m)).
Definition get_date_uploaded (m : movie) : string :=
  default EmptyString (date_uploaded m).
Definition get_torrents (m : movie) : list torrent := default [] (torrents m).
Definition get_title (m : movie) : string := default EmptyString (title m).
Definition get_seeds (t : torrent) : Z := default 0 (seeds t).
(** [movie.get('id')] *)
Definition get_id (m : movie) : pyval := default PyNone (id m).

(** [movie['_score'] = s] *)
Definition with_score (m : movie) (s : Q) : movie :=
  {| id := id m; title := title m; year := year m; rating := rating m;
     genres := genres m; date_uploaded := date_uploaded m;
     torrents := torrents m; _score := Some s |}.

(** ** Time *)

(** A [datetime]: microseconds of wall-clock time since 1970-01-01 00:00,
    and the UTC offset (in microseconds) of an aware value. *)
Record datetime : Type := mkDatetime {
  wall : Z;
  tzinfo : option Z
}.

(** What the system clock shows at one moment: the UTC time and the offset
    of the local zone, both in microseconds. *)
Record instant : Type := mkInstant {
  utc : Z;
  local_offset : Z
}.

Definition usec_per_hour : Z := 3600 * 1000000.
Definition usec_per_day : Z := 24 * usec_per_hour.

(** Year of the proleptic Gregorian calendar that holds day number [days]
    (day 0 is 1970-01-01). *)
Definition civil_year (days : Z) : Z :=
  let z := days + 719468 in
  let era := z / 146097 in
  let doe := z - era * 146097 in
  let yoe := (doe - doe / 1460 + doe / 36524 - doe / 146096) / 365 in
  let doy := doe - (365 * yoe + yoe / 4 - yoe / 100) in
  let mp := (5 * doy + 2) / 153 in
  yoe + era * 400 + (if mp <? 10 then 0 else 1).

(** [d.year] *)
Definition dt_year (d : datetime) : Z := civil_year (wall d / usec_per_day).

(** [datetime.now(tz)] evaluated at instant [i]. *)
Definition now_at (i : instant) (tz : option Z) : datetime :=
  {| wall := utc i + default (local_offset i) tz; tzinfo := tz |}.

(** [(a - b)] in microseconds, for [a] and [b] carrying the same [tzinfo]. *)
Definition dt_sub (a b : datetime) : Z := wall a - wall b.

(** The clock: the instants that successive calls of [datetime.now] see. *)
Definition clock : Type := nat -> instant.

(** Computations that read the clock. *)
Definition Clocked (A : Type) : Type := clock -> A * clock.

Definition ret {A : Type} (a : A) : Clocked A := fun c => (a, c).

Definition bind {A B : Type} (x : Clocked A) (f : A -> Clocked B) : Clocked B :=
  fun c => let (a, c') := x c in f a c'.

Notation "x <- e1 ;; e2" := (bind e1 (fun x => e2))
  (at level 100, e1 at next level, right associativity).

(** [datetime.now(tz)] *)
Definition datetime_now (tz : option Z) : Clocked datetime :=
  fun c => (now_at (c 0%nat) tz, fun n => c (S n)).

(** The value a clocked computation returns. *)
Definition result {A : Type} (x : Clocked A) (c : clock) : A := fst (x c).

(** ** The store of movie dicts *)

Definition ref : Type := nat.
Definition heap : Type := ref -> movie.

(** The store after an assignment to the object at [r]. *)
Definition store (h : heap) (r : ref) (m : movie) : heap :=
  fun r' => if Nat.eqb r' r then m else h r'.

(** ** Comparisons and sorting *)

(** [a < b] on numbers. *)
Definition Qltb (a b : Q) : bool := negb (Qle_bool b a).

(** [a < b] on pairs: Python compares tuples lexicographically. *)
Definition tuple_lt (a b : Q * Q) : bool :=
  if Qeq_bool (fst a) (fst b) then Qltb (snd a) (snd b)
  else Qltb (fst a) (fst b).

(** [a == b] on pairs. *)
Definition tuple_eq (a b : Q * Q) : bool :=
  Qeq_bool (fst a) (fst b) && Qeq_bool (snd a) (snd b).

Section Sort.

Context {A : Type} (key : A -> Q * Q).

(** Insertion in front of the first element that is not smaller. *)
Fixpoint insert_asc (x : A) (l : list A) : list A :=
  match l with
  | [] => [x]
  | y :: l' =>
      if tuple_lt (key y) (key x) then y :: insert_asc x l'
      else x :: y :: l'
  end.

(** A stable ascending sort. *)
Definition sort_asc (l : list A) : list A := foldr insert_asc [] l.

(** [l.sort(key=key, reverse=True)] *)
Definition list_sort_reverse (l : list A) : list A :=
  rev (sort_asc (rev l)).

End Sort.

(** ** Configuration of the admission filter

    The module constants [MIN_RATING], [MIN_YEAR] and [EXCLUDED_GENRES]. *)
Record config : Type := mkConfig {
  min_rating : Q;
  min_year : Z;
  excluded_genres : gset string
}.

(** [sum(torrent.get('seeds', 0) for torrent in torrents)] *)
Definition total_seeds (ts : list torrent) : Z :=
  foldr (fun t acc => get_seeds t + acc) 0 ts.

(** ** The scorer of [movie_notifier.py] *)

Module Basic.

Definition PREFERRED_GENRES : gset string :=
  {[ "Action"; "Adventure"; "Comedy"; "Crime"; "Fantasy"; "Horror";
     "Mystery"; "Romance"; "Sci-Fi"; "Thriller"; "War"; "Western" ]}.

Definition year_bonus (year current_year : Z) : Z :=
  if current_year - 1 <=? year then 10
  else if current_year - 2 <=? year then 5
  else if current_year - 3 <=? year then 2
  else 0.

Definition genre_bonus (gs : gset string) : Z :=
  let preferred_count := Z.of_nat (size (gs ∩ PREFERRED_GENRES)) in
  preferred_count * 3 + (if 2 <=? preferred_count then 5 else 0).

Definition seed_bonus (total : Z) : Z :=
  if 100 <? total then 5
  else if 50 <? total then 3
  else 0.

Definition torrent_bonus (ts : list torrent) : Z :=
  match ts with
  | [] => 0
  | _ => Z.min (Z.of_nat (length ts)) 3 * 2 + seed_bonus (total_seeds ts)
  end.

Definition calculate_movie_score (m : movie) : Clocked Q :=
  let score := 0%Q in
  let score := (score + get_rating m * 2)%Q in
  today <- datetime_now None ;;
  let current_year := dt_year today in
  let score := (score + inject_Z (year_bonus (get_year m) current_year))%Q in
  let score := (score + inject_Z (genre_bonus (get_genres m)))%Q in
  let score := (score + inject_Z (torrent_bonus (get_torrents m)))%Q in
  ret score.

End Basic.

(** ** [enhanced_movie_notifier.py] *)

Module Enhanced.

Definition MIN_RATING : Q := 6.
Definition MIN_YEAR : Z := 2025.
Definition EXCLUDED_GENRES : gset string :=
  {[ "Biography"; "Documentary"; "Drama"; "History"; "Sport"; "Music";
     "Comedy" ]}.
Definition defaults : config :=
  {| min_rating := MIN_RATING; min_year := MIN_YEAR;
     excluded_genres := EXCLUDED_GENRES |}.

Definition PREFERRED_GENRES : gset string :=
  {[ "Action"; "Adventure"; "Crime"; "Fantasy"; "Horror"; "Mystery";
     "Romance"; "Sci-Fi"; "Thriller"; "War"; "Western" ]}.

Definition high_priority_genres : gset string :=
  {[ "Action"; "Adventure"; "Thriller"; "Sci-Fi"; "Horror" ]}.

Definition sequel_indicators : list string :=
  [ "2"; "3"; "4"; "5"; "6"; "7"; "8"; "9"; "10"; "part"; "sequel";
    "remake"; "reboot" ].

Definition famous_patterns : list string :=
  [ "years later"; "happy"; "gilmore"; "sitaare"; "zameen"; "par" ].

(** The bonus for [hours_since_added].  The code divides the elapsed
    seconds by 3600 and compares with 24, 72, 168 and 720; the model
    compares the elapsed microseconds with as many hours. *)
Definition recency_tier (usec : Z) : Z :=
  if usec <=? 24 * usec_per_hour then 100
  else if usec <=? 72 * usec_per_hour then 60
  else if usec <=? 168 * usec_per_hour then 40
  else if usec <=? 720 * usec_per_hour then 20
  else 10.

Definition year_bonus (year current_year : Z) : Z :=
  if current_year <=? year then 25
  else if current_year - 1 <=? year then 15
  else if current_year - 2 <=? year then 8
  else 0.

Definition genre_bonus (gs : gset string) : Z :=
  let high_priority_count := Z.of_nat (size (gs ∩ high_priority_genres)) in
  let preferred_count := Z.of_nat (size (gs ∩ PREFERRED_GENRES)) in
  high_priority_count * 5 + preferred_count * 3
  + (if 2 <=? high_priority_count then 15 else 0)
  + (if 2 <=? preferred_count then 8 else 0).

Definition seed_bonus (total : Z) : Z :=
  if 200 <? total then 10
  else if 100 <? total then 6
  else if 50 <? total then 3
  else 0.

Definition torrent_bonus (ts : list torrent) : Z :=
  match ts with
  | [] => 0
  | _ => Z.min (Z.of_nat (length ts)) 3 * 2 + seed_bonus (total_seeds ts)
  end.

Definition title_bonus (raw_title : string) : Z :=
  let title := Str.lower raw_title in
  (if Str.any_in sequel_indicators title then 20 else 0)
  + (if Str.any_digit title then 15 else 0)
  + (if Str.any_in famous_patterns title then 25 else 0).

Section Scorer.

(** [datetime.fromisoformat]; [None] when it raises. *)
Variable fromisoformat : string -> option datetime.

(** The block guarded by [if date_added:], with its [try]/[except]. *)
Definition listing_bonus (m : movie) : Clocked Z :=
  let date_added := get_date_uploaded m in
  if String.eqb date_added "" then ret 0
  else
    match fromisoformat (Str.replace_Z date_added) with
    | Some date_obj =>
        current_time <- datetime_now (tzinfo date_obj) ;;
        ret (recency_tier (dt_sub current_time date_obj))
    | None => ret 15
    end.

(** The additions follow the order of the source; the consecutive genre
    bonuses, the two torrent bonuses and the three title bonuses are each
    added as one integer. *)
Definition calculate_movie_score (m : movie) : Clocked Q :=
  let score := 0%Q in
  let score := (score + get_rating m * 3)%Q in
  recency <- listing_bonus m ;;
  let score := (score + inject_Z recency)%Q in
  today <- datetime_now None ;;
  let current_year := dt_year today in
  let score := (score + inject_Z (year_bonus (get_year m) current_year))%Q in
  let score := (score + inject_Z (genre_bonus (get_genres m)))%Q in
  let score := (score + inject_Z (torrent_bonus (get_torrents m)))%Q in
  let score := (score + inject_Z (title_bonus (get_title m)))%Q in
  ret score.

(** The key of the sort: [(x['_score'], x.get('rating', 0))]. *)
Definition sort_key (h : heap) (r : ref) : Q * Q :=
  (default 0%Q (_score (h r)), get_rating (h r)).

(** The loop of [filter_high_rated_movies]: the references kept, in
    input order, and the store after the assignments to ['_score']. *)
Fixpoint filter_loop (cfg : config) (movies : list ref) (h : heap)
  : Clocked (list ref * heap) :=
  match movies with
  | [] => ret ([], h)
  | r :: rest =>
      let movie := h r in
      if Qltb (get_rating movie) (min_rating cfg)
         || (get_year movie <? min_year cfg)
      then filter_loop cfg rest h
      else if negb (bool_decide (get_genres movie ∩ excluded_genres cfg = ∅))
      then filter_loop cfg rest h
      else
        s <- calculate_movie_score movie ;;
        kept <- filter_loop cfg rest (store h r (with_score movie s)) ;;
        ret (r :: fst kept, snd kept)
  end.

Definition filter_high_rated_movies (cfg : config) (movies : list ref)
  (h : heap) : Clocked (list ref * heap) :=
  kept <- filter_loop cfg movies h ;;
  let filtered_movies := fst kept in
  let h' := snd kept in
  ret (list_sort_reverse (sort_key h') filtered_movies, h').

End Scorer.

(** [get_new_movies]: the new movies and [self.known_movies] after the
    call.  The function reads the dicts and changes none, so the batch is
    given by the dicts themselves. *)
Fixpoint get_new_movies (movies : list movie) (known_movies : gset pykey)
  : list movie * gset pykey :=
  match movies with
  | [] => ([], known_movies)
  | movie :: rest =>
      let movie_id := get_id movie in
      if truthy movie_id && negb (bool_decide (key_of movie_id ∈ known_movies))
      then
        let (new_movies, known') :=
          get_new_movies rest ({[ key_of movie_id ]} ∪ known_movies) in
        (movie :: new_movies, known')
      else get_new_movies rest known_movies
  end.

(** Successive calls of [get_new_movies] on one notifier: the outputs of
    the calls, and the final [known_movies]. *)
Fixpoint polling (batches : list (list movie)) (known_movies : gset pykey)
  : list (list movie) * gset pykey :=
  match batches with
  | [] => ([], known_movies)
  | movies :: later =>
      let (new_movies, known') := get_new_movies movies known_movies in
      let (outs, final) := polling later known' in
      (new_movies :: outs, final)
  end.

End Enhanced.

(** ** A concrete timestamp parser

    The fragment of [datetime.fromisoformat] that reads
    [YYYY-MM-DD HH:MM:SS] (or with [T]), optionally followed by an offset
    [+HH:MM] or [-HH:MM].  It instantiates the parser parameter when the
    model is run on concrete entries; no general result depends on it. *)

Module Iso.

Definition digit (c : ascii) : option Z :=
  if Str.isdigit c then Some (Z.of_nat (nat_of_ascii c) - 48) else None.

Fixpoint number (acc : Z) (s : string) : option Z :=
  match s with
  | EmptyString => Some acc
  | String c s' =>
      match digit c with
      | Some d => number (acc * 10 + d) s'
      | None => None
      end
  end.

(** The decimal number written in [s] at [start], on [len] characters. *)
Definition field (s : string) (start len : nat) : option Z :=
  let f := String.substring start len s in
  if (String.length f =? len)%nat then number 0 f else None.

Definition sep (s : string) (n : nat) (cs : list ascii) : bool :=
  match String.get n s with
  | Some c => existsb (Ascii.eqb c) cs
  | None => false
  end.

Definition is_leap (y : Z) : bool :=
  (y mod 4 =? 0) && (negb (y mod 100 =? 0) || (y mod 400 =? 0)).

Definition days_in_month (y m : Z) : Z :=
  if m =? 2 then (if is_leap y then 29 else 28)
  else if (m =? 4) || (m =? 6) || (m =? 9) || (m =? 11) then 30
  else 31.

(** Day number of a calendar date (day 0 is 1970-01-01). *)
Definition days_from_civil (y m d : Z) : Z :=
  let y' := if m <=? 2 then y - 1 else y in
  let era := y' / 400 in
  let yoe := y' - era * 400 in
  let doy := (153 * (if 2 <? m then m - 3 else m + 9) + 2) / 5 + d - 1 in
  let doe := yoe * 365 + yoe / 4 - yoe / 100 + doy in
  era * 146097 + doe - 719468.

(** The UTC offset written in [s]: [Some None] for a naive value. *)
Definition offset (s : string) : option (option Z) :=
  match s with
  | EmptyString => Some None
  | String sign _ =>
      match field s 1 2, field s 4 2 with
      | Some hh, Some mm =>
          if (String.length s =? 6)%nat && sep s 3 [":"%char]
             && (hh <? 24) && (mm <? 60)
          then
            let usec := (hh * 60 + mm) * 60 * 1000000 in
            if Ascii.eqb sign "+"%char then Some (Some usec)
            else if Ascii.eqb sign "-"%char then Some (Some (- usec))
            else None
          else None
      | _, _ => None
      end
  end.

Definition fromisoformat (s : string) : option datetime :=
  match field s 0 4, field s 5 2, field s 8 2,
        field s 11 2, field s 14 2, field s 17 2,
        offset (String.substring 19 (String.length s - 19) s) with
  | Some y, Some mo, Some d, Some hh, Some mi, Some ss, Some tz =>
      if sep s 4 ["-"%char] && sep s 7 ["-"%char]
         && sep s 10 [" "%char; "T"%char]
         && sep s 13 [":"%char] && sep s 16 [":"%char]
         && (1 <=? y) && (1 <=? mo) && (mo <=? 12)
         && (1 <=? d) && (d <=? days_in_month y mo)
         && (hh <? 24) && (mi <? 60) && (ss <? 60)
      then Some {| wall := days_from_civil y mo d * usec_per_day
                           + ((hh * 60 + mi) * 60 + ss) * 1000000;
                   tzinfo := tz |}
      else None
  | _, _, _, _, _, _, _ => None
  end.

End Iso.

(** ** Vocabulary of the statements *)

(** The set key of a movie's identifier, and the keys of a batch. *)
Definition id_key (m : movie) : pykey := key_of (get_id m).
Definition id_keys (ms : list movie) : list pykey := map id_key ms.

(** The same dict without the key ['id']. *)
Definition without_id (m : movie) : movie :=
  {| id := None; title := title m; year := year m; rating := rating m;
     genres := genres m; date_uploaded := date_uploaded m;
     torrents := torrents m; _score := _score m |}.

(** The same dict without the key ['_score']. *)
Definition without_score (m : movie) : movie :=
  {| id := id m; title := title m; year := year m; rating := rating m;
     genres := genres m; date_uploaded := date_uploaded m;
     torrents := torrents m; _score := None |}.

(** The same dict with ['date_uploaded'] set to [s]. *)
Definition with_date (m : movie) (s : string) : movie :=
  {| id := id m; title := title m; year := year m; rating := rating m;
     genres := genres m; date_uploaded := Some s;
     torrents := torrents m; _score := _score m |}.

(** The same dict with ['torrents'] set to [ts]. *)
Definition with_torrents (m : movie) (ts : list torrent) : movie :=
  {| id := id m; title := title m; year := year m; rating := rating m;
     genres := genres m; date_uploaded := date_uploaded m;
     torrents := Some ts; _score := _score m |}.

(** The same variant with ['seeds'] set to [v]. *)
Definition with_seeds (t : torrent) (v : Z) : torrent :=
  {| quality := quality t; size_label := size_label t; seeds := Some v |}.

(** Microseconds from the listing time [d] to the first reading of the
    clock, taken in the zone of [d]. *)
Definition elapsed (c : clock) (d : datetime) : Z :=
  dt_sub (now_at (c 0%nat) (tzinfo d)) d.

(** The year the scorer compares release years with: the local year at the
    first reading of the clock. *)
Definition current_year (c : clock) : Z := dt_year (now_at (c 0%nat) None).

(** The admission criterion on one entry, as a boolean. *)
Definition admitted (cfg : config) (m : movie) : bool :=
  Qle_bool (min_rating cfg) (get_rating m)
  && (min_year cfg <=? get_year m)
  && bool_decide (get_genres m ∩ excluded_genres cfg = ∅).

(** Sort keys in presentation order: [ka] has the higher score, or the
    scores are equal and the rating of [ka] is not the lower one. *)
Definition ranks_before (ka kb : Q * Q) : Prop :=
  (fst kb < fst ka)%Q ∨ (fst ka == fst kb ∧ snd kb <= snd ka)%Q.

(** The entries of [l] whose sort key equals [k], in the order of [l]. *)
Definition with_key {A : Type} (key : A -> Q * Q) (k : Q * Q) (l : list A)
  : list A :=
  List.filter (fun x => tuple_eq (key x) k) l.

(** ** Sample data

    Concrete entries, stores and clocks on which the model is run. *)

Module Sample.

(** A clock that starts at [t] (microseconds, UTC) and advances by one
    microsecond per reading, in a zone at UTC. *)
Definition clock_from (t : Z) : clock :=
  fun n => {| utc := t + Z.of_nat n; local_offset := 0 |}.

(** 2025-06-20 12:36:40 UTC. *)
Definition t_now : Z := 1750423000 * 1000000.

(** 31 days later. *)
Definition t_later : Z := t_now + 31 * usec_per_day.

(** A clock that agrees with [clock_from t] on its first two readings and
    shows the epoch afterwards. *)
Definition clock_two (t : Z) : clock :=
  fun n => if (n <? 2)%nat then clock_from t n
           else {| utc := 0; local_offset := 0 |}.

Definition horror : movie :=
  {| id := Some (PyInt 101);
     title := Some "28 Years Later";
     year := Some 2025;
     rating := Some (69 # 10)%Q;
     genres := Some ["Horror"; "Thriller"];
     date_uploaded := Some "2025-06-20 10:36:40";
     torrents := Some [ mkTorrent (Some "720p") (Some "1.1 GB") (Some 120);
                        mkTorrent (Some "1080p") (Some "2.2 GB") None ];
     _score := None |}.

Definition quiet : movie :=
  {| id := Some (PyInt 102);
     title := Some "Quiet Harbour";
     year := Some 2025;
     rating := Some 8%Q;
     genres := Some ["Mystery"];
     date_uploaded := None;
     torrents := None;
     _score := None |}.

(** [quiet] with an identifier that is present and falsy. *)
Definition zero_id : movie :=
  {| id := Some (PyInt 0); title := title quiet; year := year quiet;
     rating := rating quiet; genres := genres quiet;
     date_uploaded := date_uploaded quiet; torrents := torrents quiet;
     _score := None |}.

Definition empty_id : movie :=
  {| id := Some (PyStr ""); title := title quiet; year := year quiet;
     rating := rating quiet; genres := genres quiet;
     date_uploaded := date_uploaded quiet; torrents := torrents quiet;
     _score := None |}.

(** A store holding [quiet] at reference 0 and [horror] everywhere else. *)
(** The variants of [horror], the second one now with 500 seeds. *)
Definition popular_variants : list torrent :=
  [ mkTorrent (Some "720p") (Some "1.1 GB") (Some 120);
    mkTorrent (Some "1080p") (Some "2.2 GB") (Some 500) ].

(** [horror] listed 200 hours before [t_now] instead of 2. *)
Definition horror_old : movie := with_date horror "2025-06-12 04:36:40".

(** [quiet] with a timestamp that does not parse. *)
Definition quiet_garbled : movie := with_date quiet "yesterday".

Definition shelf : heap :=
  fun r => match r with O => quiet | S _ => horror end.

End Sample.

(** ** The scorer of [interactive_movie_bot.py] *)

Module Interactive.

Definition PREFERRED_GENRES : gset string :=
  {[ "Action"; "Adventure"; "Crime"; "Fantasy"; "Horror"; "Mystery";
     "Romance"; "Sci-Fi"; "Thriller"; "War"; "Western" ]}.

Definition high_priority_genres : gset string :=
  {[ "Action"; "Adventure"; "Thriller"; "Sci-Fi"; "Horror" ]}.

Definition famous_patterns : list string :=
  [ "28 years later"; "happy gilmore 2"; "sitaare zameen par"; "deadpool";
    "batman"; "spider-man"; "avengers"; "star wars"; "mission impossible";
    "fast and furious"; "james bond" ].

Definition sequel_words : list string :=
  [ "2"; "3"; "4"; "5"; "6"; "7"; "8"; "9"; "10"; "ii"; "iii"; "iv"; "v";
    "vi"; "vii"; "viii"; "ix"; "x" ].

Definition year_bonus (year current_year : Z) : Z :=
  if current_year - 1 <=? year then 10
  else if current_year - 2 <=? year then 5
  else if current_year - 3 <=? year then 2
  else 0.

Definition genre_bonus (gs : gset string) : Z :=
  let preferred_count := Z.of_nat (size (gs ∩ PREFERRED_GENRES)) in
  let high_priority_count := Z.of_nat (size (gs ∩ high_priority_genres)) in
  preferred_count * 3 + (if 2 <=? preferred_count then 5 else 0)
  + high_priority_count * 5.

(** The loop over [famous_patterns] stops at the first match, so the bonus
    is given once; then the bonus for a sequel word. *)
Definition title_bonus (raw_title : string) : Z :=
  let title := Str.lower raw_title in
  (if Str.any_in famous_patterns title then 25 else 0)
  + (if Str.any_in sequel_words title then 15 else 0).

Definition seed_bonus (total : Z) : Z :=
  if 100 <? total then 5
  else if 50 <? total then 3
  else 0.

Definition torrent_bonus (ts : list torrent) : Z :=
  match ts with
  | [] => 0
  | _ => Z.min (Z.of_nat (length ts)) 3 * 2 + seed_bonus (total_seeds ts)
  end.

Section Scorer.

Variable fromisoformat : string -> option datetime.

(** The block on ['date_uploaded'] is the one of
    [enhanced_movie_notifier.py], line for line. *)
Definition calculate_movie_score (m : movie) : Clocked Q :=
  let score := 0%Q in
  let score := (score + get_rating m * 3)%Q in
  recency <- Enhanced.listing_bonus fromisoformat m ;;
  let score := (score + inject_Z recency)%Q in
  today <- datetime_now None ;;
  let current_year := dt_year today in
  let score := (score + inject_Z (year_bonus (get_year m) current_year))%Q in
  let score := (score + inject_Z (genre_bonus (get_genres m)))%Q in
  let score := (score + inject_Z (title_bonus (get_title m)))%Q in
  let score := (score + inject_Z (torrent_bonus (get_torrents m)))%Q in
  ret score.

End Scorer.

End Interactive.

(** ** The rest of [enhanced_movie_notifier.py] *)

(** [a == b] on identifiers. *)
Definition py_eq (a b : pyval) : bool := bool_decide (key_of a = key_of b).

(** What an HTTP request gives: an exception, or a response with its status
    and the list under [data.movies] of its JSON body ([[]] when absent). *)
Inductive response : Type :=
  | Raised
  | Response (status : Z) (movies : list movie).

(** One element of the list under ['Ratings'] of an OMDb reply. *)
Record omdb_rating : Type := mkOmdbRating {
  Source : option string;
  Value : option string
}.

Module Notifier.

(** [any(m.get('id') == x.get('id') for m in movies)] *)
Definition id_in (movies : list movie) (x : movie) : bool :=
  existsb (fun m => py_eq (get_id m) (get_id x)) movies.

(** The loop of [get_latest_movies] that appends to [movies] the search
    results whose identifier it does not hold yet. *)
Fixpoint add_missing (movies search_movies : list movie) : list movie :=
  match search_movies with
  | [] => movies
  | search_movie :: rest =>
      if id_in movies search_movie then add_missing movies rest
      else add_missing (movies ++ [search_movie]) rest
  end.

(** [get_latest_movies], given what the two requests return.  An exception
    anywhere inside the [try] gives the empty list. *)
Definition get_latest_movies (latest search : response) : list movie :=
  match latest with
  | Raised => []
  | Response status movies =>
      if status =? 200 then
        match search with
        | Raised => []
        | Response search_status search_movies =>
            if search_status =? 200 then add_missing movies search_movies
            else movies
        end
      else []
  end.

(** The loop of [get_omdb_rating] that fills the dict [ratings]. *)
Definition ratings_of (l : list omdb_rating) : gmap string string :=
  foldl (fun ratings rating =>
           let source := default EmptyString (Source rating) in
           let value := default EmptyString (Value rating) in
           if negb (String.eqb source "") && negb (String.eqb value "")
           then <[ source := value ]> ratings
           else ratings)
        ∅ l.

Section Cycle.

Variable fromisoformat : string -> option datetime.

(** [check_and_notify] from the list [get_latest_movies] returned up to the
    loop that sends: the movies handed to [send_notification], in order, the
    store and [known_movies] afterwards.  Sending, and the assignment to
    [last_check_time] that follows it, are not part of the model. *)
Definition check_and_notify (cfg : config) (movies : list ref) (h : heap)
  (known_movies : gset pykey) : Clocked (list movie * heap * gset pykey) :=
  match movies with
  | [] => ret ([], h, known_movies)
  | _ =>
      res <- Enhanced.filter_high_rated_movies fromisoformat cfg movies h ;;
      let high_rated_movies := fst res in
      let h' := snd res in
      match high_rated_movies with
      | [] => ret ([], h', known_movies)
      | _ =>
          let (new_movies, known') :=
            Enhanced.get_new_movies (map h' high_rated_movies) known_movies in
          ret (new_movies, h', known')
      end
  end.

End Cycle.

End Notifier.

(** The clock [k] readings later. *)
Definition later (k : nat) (c : clock) : clock := fun n => c (k + n)%nat.

(** The sort key read off a dict: [(x['_score'], x.get('rating', 0))]. *)
Definition movie_key (m : movie) : Q * Q :=
  (default 0%Q (_score m), get_rating m).

(** The same dict with ['year'] set to [y]. *)
Definition with_year (m : movie) (y : Z) : movie :=
  {| id := id m; title := title m; year := Some y; rating := rating m;
     genres := genres m; date_uploaded := date_uploaded m;
     torrents := torrents m; _score := _score m |}.

(** * Properties *)

(** ** The novelty tracker *)

Section Novelty.

Implicit Types (movies : list movie) (known : gset pykey) (m : movie).

Lemma truthy_key v w : key_of v = key_of w → truthy v = truthy w.
Proof.
  destruct v as [|[]|z|s], w as [|[]|z'|s']; simpl; intros E;
    try discriminate; try reflexivity; inversion E; subst; reflexivity.
Qed.

(** What one call does: the keys of the returned movies are the ones added,
    they are new and pairwise distinct, and the returned movies are taken in
    order from the batch. *)
Lemma get_new_movies_spec movies : ∀ known,
  snd (Enhanced.get_new_movies movies known)
    = list_to_set (id_keys (fst (Enhanced.get_new_movies movies known))) ∪ known
  ∧ NoDup (id_keys (fst (Enhanced.get_new_movies movies known)))
  ∧ (∀ k, k ∈ id_keys (fst (Enhanced.get_new_movies movies known)) → k ∉ known)
  ∧ Forall (λ m, truthy (get_id m) = true)
           (fst (Enhanced.get_new_movies movies known))
  ∧ sublist (fst (Enhanced.get_new_movies movies known)) movies.
Proof.
  induction movies as [|m rest IH]; intros known; simpl.
  - repeat split; [set_solver | constructor | set_solver | constructor | constructor].
  - destruct (truthy (get_id m)) eqn:Ht; simpl.
    + case_bool_decide as Hin; simpl.
      * destruct (IH known) as (E & N & F & T & S).
        repeat split; try assumption. by apply sublist_cons.
      * destruct (IH ({[key_of (get_id m)]} ∪ known)) as (E & N & F & T & S).
        destruct (Enhanced.get_new_movies rest _) as [new known']; simpl in *.
        repeat split.
        -- rewrite E. set_solver.
        -- constructor; [|assumption]. intros Hk. apply F in Hk. set_solver.
        -- intros k Hk. apply elem_of_cons in Hk as [->|Hk]; [assumption|].
           apply F in Hk. set_solver.
        -- constructor; assumption.
        -- by apply sublist_skip.
    + destruct (IH known) as (E & N & F & T & S).
      repeat split; try assumption. by apply sublist_cons.
Qed.

Lemma get_new_movies_known_mono movies known :
  known ⊆ snd (Enhanced.get_new_movies movies known).
Proof. destruct (get_new_movies_spec movies known) as (E & _). rewrite E. set_solver. Qed.

(** Every truthy identifier of the batch is known after the call. *)
Lemma get_new_movies_records movies : ∀ known m,
  m ∈ movies → truthy (get_id m) = true →
  id_key m ∈ snd (Enhanced.get_new_movies movies known).
Proof.
  induction movies as [|m' rest IH]; intros known m Hin Ht.
  - by apply elem_of_nil in Hin.
  - simpl. apply elem_of_cons in Hin as [<-|Hin].
    + rewrite Ht. simpl. case_bool_decide as Hk; simpl.
      * by apply get_new_movies_known_mono.
      * pose proof (get_new_movies_known_mono rest ({[key_of (get_id m)]} ∪ known)) as Hm.
        destruct (Enhanced.get_new_movies rest _) as [new known']; simpl in *.
        apply Hm. unfold id_key. set_solver.
    + destruct (truthy (get_id m') && _) eqn:Hc.
      * pose proof (IH ({[key_of (get_id m')]} ∪ known) m Hin Ht) as Hm.
        destruct (Enhanced.get_new_movies rest _) as [new known']; simpl in *.
        exact Hm.
      * by apply IH.
Qed.

(** A batch whose truthy identifiers are all known yields nothing. *)
Lemma get_new_movies_all_known movies known :
  (∀ m, m ∈ movies → truthy (get_id m) = true → id_key m ∈ known) →
  Enhanced.get_new_movies movies known = ([], known).
Proof.
  induction movies as [|m rest IH]; intros Hall; [reflexivity|].
  simpl. destruct (truthy (get_id m)) eqn:Ht; simpl.
  - rewrite bool_decide_eq_true_2; simpl.
    + apply IH. intros m' Hin. apply Hall. by right.
    + apply (Hall m); [by left | assumption].
  - apply IH. intros m' Hin. apply Hall. by right.
Qed.

Lemma polling_app earlier : ∀ later known,
  Enhanced.polling (earlier ++ later) known
  = (fst (Enhanced.polling earlier known)
       ++ fst (Enhanced.polling later (snd (Enhanced.polling earlier known))),
     snd (Enhanced.polling later (snd (Enhanced.polling earlier known)))).
Proof.
  induction earlier as [|b earlier IH]; intros later known; simpl.
  - by destruct (Enhanced.polling later known).
  - destruct (Enhanced.get_new_movies b known) as [new known1].
    rewrite IH.
    destruct (Enhanced.polling earlier known1) as [outs1 mid]; simpl.
    reflexivity.
Qed.

Lemma polling_spec batches : ∀ known,
  snd (Enhanced.polling batches known)
    = list_to_set (id_keys (concat (fst (Enhanced.polling batches known)))) ∪ known
  ∧ NoDup (id_keys (concat (fst (Enhanced.polling batches known))))
  ∧ (∀ k, k ∈ id_keys (concat (fst (Enhanced.polling batches known))) → k ∉ known).
Proof.
  induction batches as [|b later IH]; intros known; simpl.
  - repeat split; [set_solver | constructor | set_solver].
  - destruct (get_new_movies_spec b known) as (E & N & F & _).
    destruct (Enhanced.get_new_movies b known) as [new known1]; simpl in *.
    destruct (IH known1) as (E' & N' & F').
    destruct (Enhanced.polling later known1) as [outs final]; simpl in *.
    unfold id_keys in *. rewrite map_app. repeat split.
    + rewrite E', E, list_to_set_app_L. set_solver.
    + apply NoDup_app. repeat split; [assumption| |assumption].
      intros k Hk Hk'. apply F' in Hk'. rewrite E in Hk'. set_solver.
    + intros k Hk. apply elem_of_app in Hk as [Hk|Hk]; [by apply F|].
      apply F' in Hk. rewrite E in Hk. set_solver.
Qed.

End Novelty.

Section NoveltyClaims.

Implicit Types (movies : list movie) (known : gset pykey) (m : movie).

Lemma elem_of_concat {A : Type} (x : A) (l : list A) (ls : list (list A)) :
  x ∈ l → l ∈ ls → x ∈ concat ls.
Proof.
  intros Hx Hl. induction ls as [|l' ls IH]; [by apply elem_of_nil in Hl|].
  simpl. apply elem_of_app. apply elem_of_cons in Hl as [<-|Hl]; auto.
Qed.

Lemma polling_length batches : ∀ known,
  length (fst (Enhanced.polling batches known)) = length batches.
Proof.
  induction batches as [|b later IH]; intros known; simpl; [reflexivity|].
  destruct (Enhanced.get_new_movies b known) as [new known1].
  specialize (IH known1).
  destruct (Enhanced.polling later known1); simpl in *. by rewrite IH.
Qed.

Lemma get_new_movies_app before : ∀ after known,
  Enhanced.get_new_movies (before ++ after) known
  = (fst (Enhanced.get_new_movies before known)
       ++ fst (Enhanced.get_new_movies after
                 (snd (Enhanced.get_new_movies before known))),
     snd (Enhanced.get_new_movies after
            (snd (Enhanced.get_new_movies before known)))).
Proof.
  induction before as [|m before IH]; intros after known; simpl.
  - by destruct (Enhanced.get_new_movies after known).
  - destruct (truthy (get_id m) && _).
    + rewrite IH.
      destruct (Enhanced.get_new_movies before _) as [new known1]; simpl.
      reflexivity.
    + apply IH.
Qed.

(** C3.  Along any sequence of calls of [get_new_movies] on one notifier,
    [known_movies] only grows: it is at every point the initial set together
    with the identifiers of the movies returned so far, each of which was
    returned (and added) exactly once; and no call returns a movie whose
    identifier was already in the set when the call began. *)
Theorem novelty_state_invariant
  (earlier later : list (list movie)) (known0 : gset pykey) :
  let mid := snd (Enhanced.polling earlier known0) in
  let run := Enhanced.polling (earlier ++ later) known0 in
  known0 ⊆ mid
  ∧ mid ⊆ snd run
  ∧ snd run = list_to_set (id_keys (concat (fst run))) ∪ known0
  ∧ NoDup (id_keys (concat (fst run)))
  ∧ (∀ k, k ∈ id_keys (concat (fst run)) → k ∉ known0)
  ∧ (∀ out m, out ∈ drop (length earlier) (fst run) → m ∈ out → id_key m ∉ mid).
Proof.
  intros mid run. subst run. rewrite polling_app. simpl. fold mid.
  pose proof (polling_spec earlier known0) as (E1 & N1 & F1). fold mid in E1.
  pose proof (polling_spec later mid) as (E2 & N2 & F2).
  pose proof (polling_spec (earlier ++ later) known0) as H3.
  rewrite polling_app in H3. simpl in H3. fold mid in H3.
  destruct H3 as (E3 & N3 & F3).
  repeat split.
  - rewrite E1. set_solver.
  - rewrite E2. set_solver.
  - exact E3.
  - exact N3.
  - exact F3.
  - intros out m Hout Hm.
    rewrite drop_app_length' in Hout by (symmetry; apply polling_length).
    apply F2. unfold id_keys. apply list_elem_of_fmap. exists m. split; [reflexivity|].
    by apply (elem_of_concat m out).
Qed.

(** C4.  A second call with the same batch, on the state the first call
    left, returns the empty list and leaves the state as it is. *)
Theorem get_new_movies_twice movies known :
  Enhanced.get_new_movies movies (snd (Enhanced.get_new_movies movies known))
  = ([], snd (Enhanced.get_new_movies movies known)).
Proof.
  apply get_new_movies_all_known. intros m Hin Ht.
  by apply get_new_movies_records.
Qed.

(** C10.  A movie whose identifier is present but falsy ([0], [""],
    [False], [None]) is not returned, its identifier is not added to
    [known_movies], and the call behaves as if the movie had no identifier,
    or were not in the batch at all. *)
Theorem falsy_id_is_absent (before after : list movie) m known :
  truthy (get_id m) = false →
  (m ∉ fst (Enhanced.get_new_movies (before ++ m :: after) known))
  ∧ (id_key m ∈ snd (Enhanced.get_new_movies (before ++ m :: after) known)
     → id_key m ∈ known)
  ∧ Enhanced.get_new_movies (before ++ m :: after) known
    = Enhanced.get_new_movies (before ++ without_id m :: after) known
  ∧ Enhanced.get_new_movies (before ++ m :: after) known
    = Enhanced.get_new_movies (before ++ after) known.
Proof.
  intros Hf.
  destruct (get_new_movies_spec (before ++ m :: after) known)
    as (E & _ & _ & T & _).
  rewrite Forall_forall in T.
  repeat split.
  - intros Hin. apply T in Hin. congruence.
  - rewrite E. intros Hk. apply elem_of_union in Hk as [Hk|Hk]; [|assumption].
    apply elem_of_list_to_set, list_elem_of_fmap in Hk as (m' & Hkey & Hin).
    apply T in Hin. apply truthy_key in Hkey. congruence.
  - rewrite !get_new_movies_app. simpl. by rewrite Hf.
  - rewrite !get_new_movies_app. simpl. by rewrite Hf.
Qed.

Lemma falsy_id_is_absent_witness :
  truthy (get_id Sample.zero_id) = false
  ∧ (Sample.zero_id ∉ fst (Enhanced.get_new_movies
                            [Sample.horror; Sample.zero_id; Sample.empty_id] ∅))
  ∧ (Enhanced.get_new_movies [Sample.horror; Sample.zero_id; Sample.empty_id] ∅
     = Enhanced.get_new_movies [Sample.horror; Sample.empty_id] ∅).
Proof.
  split; [reflexivity|].
  pose proof (falsy_id_is_absent [Sample.horror] [Sample.empty_id]
                Sample.zero_id ∅ eq_refl) as (H1 & _ & _ & H4).
  split; [exact H1 | exact H4].
Defined.

End NoveltyClaims.

(** ** Sorting *)

Section SortFacts.

Lemma Qltb_spec (a b : Q) : Qltb a b = true ↔ (a < b)%Q.
Proof.
  unfold Qltb. rewrite negb_true_iff. split.
  - intros H. apply Qnot_le_lt. intros Hle.
    apply Qle_bool_iff in Hle. congruence.
  - intros H. destruct (Qle_bool b a) eqn:E; [|reflexivity].
    apply Qle_bool_iff in E. apply Qlt_not_le in H. contradiction.
Qed.

Lemma tuple_lt_spec (a b : Q * Q) :
  tuple_lt a b = true
  ↔ (fst a < fst b)%Q ∨ (fst a == fst b ∧ snd a < snd b)%Q.
Proof.
  unfold tuple_lt. destruct (Qeq_bool (fst a) (fst b)) eqn:E.
  - apply Qeq_bool_iff in E. rewrite Qltb_spec. split; [auto|].
    intros [H|[_ H]]; [|exact H]. rewrite E in H. by apply Qlt_irrefl in H.
  - apply Qeq_bool_neq in E. rewrite Qltb_spec. split; [auto|].
    intros [H|[H _]]; [exact H | contradiction].
Qed.

Lemma tuple_lt_false (a b : Q * Q) :
  tuple_lt a b = false ↔ ranks_before a b.
Proof.
  unfold ranks_before. rewrite <- not_true_iff_false, tuple_lt_spec. split.
  - intros H. destruct (Q_dec (fst a) (fst b)) as [[Hlt|Hgt]|Heq].
    + exfalso. auto.
    + by left.
    + right. split; [exact Heq|]. apply Qnot_lt_le. intros Hlt. auto.
  - intros [Hgt|[Heq Hle]] [Hlt|[Heq' Hlt]]; lra.
Qed.

Lemma tuple_eq_spec (a b : Q * Q) :
  tuple_eq a b = true ↔ (fst a == fst b ∧ snd a == snd b)%Q.
Proof. unfold tuple_eq. by rewrite andb_true_iff, !Qeq_bool_iff. Qed.

Lemma ranks_before_trans (a b c : Q * Q) :
  ranks_before a b → ranks_before b c → ranks_before a c.
Proof. unfold ranks_before. intros [?|[? ?]] [?|[? ?]]; [left|left|left|right; split]; lra. Qed.

Lemma tuple_lt_ranks (a b : Q * Q) : tuple_lt a b = true → ranks_before b a.
Proof.
  rewrite tuple_lt_spec. unfold ranks_before.
  intros [?|[? ?]]; [left|right; split]; lra.
Qed.

(** Two keys equal to a third are not strictly ordered. *)
Lemma tuple_eq_not_lt (a b k : Q * Q) :
  tuple_eq a k = true → tuple_eq b k = true → tuple_lt a b = false.
Proof.
  rewrite !tuple_eq_spec, tuple_lt_false. unfold ranks_before.
  intros [? ?] [? ?]. right. split; lra.
Qed.

Context {A : Type} (key : A → Q * Q).

Lemma insert_asc_perm (x : A) (l : list A) : insert_asc key x l ≡ₚ x :: l.
Proof.
  induction l as [|y l IH]; simpl; [reflexivity|].
  destruct (tuple_lt (key y) (key x)); [|reflexivity].
  rewrite IH. apply perm_swap.
Qed.

Lemma sort_asc_perm (l : list A) : sort_asc key l ≡ₚ l.
Proof.
  induction l as [|x l IH]; simpl; [reflexivity|].
  by rewrite insert_asc_perm, IH.
Qed.

Lemma list_sort_reverse_perm (l : list A) : list_sort_reverse key l ≡ₚ l.
Proof.
  unfold list_sort_reverse.
  by rewrite <- Permutation_rev, sort_asc_perm, <- Permutation_rev.
Qed.

(** Ascending order: no element is followed by a strictly smaller one. *)
Lemma insert_asc_sorted (x : A) (l : list A) :
  StronglySorted (λ a b, ranks_before (key b) (key a)) l →
  StronglySorted (λ a b, ranks_before (key b) (key a)) (insert_asc key x l).
Proof.
  induction l as [|y l IH]; simpl; intros Hs.
  - repeat constructor.
  - apply StronglySorted_cons in Hs as [Hy Hl].
    destruct (tuple_lt (key y) (key x)) eqn:E.
    + apply StronglySorted_cons. split; [|by apply IH].
      rewrite Forall_forall in *. intros z Hz.
      rewrite insert_asc_perm in Hz. apply elem_of_cons in Hz as [->|Hz].
      * by apply tuple_lt_ranks.
      * by apply Hy.
    + apply tuple_lt_false in E.
      apply StronglySorted_cons. split.
      * constructor; [exact E|]. rewrite Forall_forall in *. intros z Hz.
        eapply ranks_before_trans; [apply Hy, Hz | exact E].
      * apply StronglySorted_cons. by split.
Qed.

Lemma sort_asc_sorted (l : list A) :
  StronglySorted (λ a b, ranks_before (key b) (key a)) (sort_asc key l).
Proof.
  induction l as [|x l IH]; simpl; [constructor|]. by apply insert_asc_sorted.
Qed.

Lemma StronglySorted_rev (R : relation A) (l : list A) :
  StronglySorted R l → StronglySorted (flip R) (rev l).
Proof.
  induction l as [|x l IH]; simpl; intros Hs; [constructor|].
  apply StronglySorted_cons in Hs as [Hx Hl].
  apply StronglySorted_app_2; [|by apply IH|repeat constructor].
  intros a b Ha Hb. apply list_elem_of_singleton in Hb as ->.
  rewrite Forall_forall in Hx. apply Hx.
  apply list_elem_of_In, in_rev. by apply list_elem_of_In.
Qed.

(** The output of the sort is in presentation order. *)
Lemma list_sort_reverse_sorted (l : list A) :
  StronglySorted (λ a b, ranks_before (key a) (key b))
                 (list_sort_reverse key l).
Proof. apply (StronglySorted_rev _ _ (sort_asc_sorted (rev l))). Qed.

Lemma with_key_insert_asc (k : Q * Q) (x : A) (l : list A) :
  with_key key k (insert_asc key x l) = with_key key k (x :: l).
Proof.
  unfold with_key. induction l as [|y l IH]; simpl; [reflexivity|].
  destruct (tuple_lt (key y) (key x)) eqn:E; [|reflexivity].
  simpl. rewrite IH. simpl.
  destruct (tuple_eq (key y) k) eqn:Ey, (tuple_eq (key x) k) eqn:Ex;
    try reflexivity.
  rewrite (tuple_eq_not_lt _ _ _ Ey Ex) in E. discriminate.
Qed.

Lemma with_key_sort_asc (k : Q * Q) (l : list A) :
  with_key key k (sort_asc key l) = with_key key k l.
Proof.
  induction l as [|x l IH]; simpl; [reflexivity|].
  rewrite with_key_insert_asc. unfold with_key in *. simpl. by rewrite IH.
Qed.

(** Stability: entries with equal keys leave the sort in the order in which
    they entered it. *)
Lemma with_key_list_sort_reverse (k : Q * Q) (l : list A) :
  with_key key k (list_sort_reverse key l) = with_key key k l.
Proof.
  unfold list_sort_reverse.
  pose proof (with_key_sort_asc k (rev l)) as H. unfold with_key in *.
  by rewrite List.filter_rev, H, List.filter_rev, rev_involutive.
Qed.

End SortFacts.

(** ** The admission filter *)

Section AdmissionFacts.

Variable fromisoformat : string → option datetime.
Variable cfg : config.

Lemma admitted_without_score (m m' : movie) :
  without_score m = without_score m' → admitted cfg m = admitted cfg m'.
Proof.
  intros H.
  change (admitted cfg (without_score m) = admitted cfg (without_score m')).
  by rewrite H.
Qed.

Lemma without_score_store (h : heap) (r r' : ref) (s : Q) :
  without_score (store h r (with_score (h r) s) r') = without_score (h r').
Proof.
  unfold store. destruct (Nat.eqb_spec r' r) as [->|_]; reflexivity.
Qed.

(** One iteration of the loop, with the two guards read as [admitted]. *)
Lemma filter_loop_cons (r : ref) (rest : list ref) (h : heap) (c : clock) :
  Enhanced.filter_loop fromisoformat cfg (r :: rest) h c
  = if admitted cfg (h r) then
      let sc := Enhanced.calculate_movie_score fromisoformat (h r) c in
      let kc := Enhanced.filter_loop fromisoformat cfg rest
                  (store h r (with_score (h r) (fst sc))) (snd sc) in
      ((r :: fst (fst kc), snd (fst kc)), snd kc)
    else Enhanced.filter_loop fromisoformat cfg rest h c.
Proof.
  simpl. unfold admitted, Qltb.
  destruct (Qle_bool (min_rating cfg) (get_rating (h r))); simpl; [|reflexivity].
  rewrite Z.ltb_antisym.
  destruct (min_year cfg <=? get_year (h r)); simpl; [|reflexivity].
  destruct (bool_decide _); simpl; [|reflexivity].
  unfold bind, ret.
  destruct (Enhanced.calculate_movie_score fromisoformat (h r) c) as [s c1].
  simpl. by destruct (Enhanced.filter_loop _ _ _ _ _) as [[kept h'] c2].
Qed.

(** The loop keeps the admitted references in order, changes nothing but
    ['_score'], touches only the entries it keeps, and scores all of them. *)
Lemma filter_loop_spec (movies : list ref) : ∀ (h : heap) (c : clock),
  fst (result (Enhanced.filter_loop fromisoformat cfg movies h) c)
    = List.filter (λ r, admitted cfg (h r)) movies
  ∧ (∀ r, without_score
            (snd (result (Enhanced.filter_loop fromisoformat cfg movies h) c) r)
          = without_score (h r))
  ∧ (∀ r, r ∉ fst (result (Enhanced.filter_loop fromisoformat cfg movies h) c)
          → snd (result (Enhanced.filter_loop fromisoformat cfg movies h) c) r
            = h r)
  ∧ (∀ r, r ∈ fst (result (Enhanced.filter_loop fromisoformat cfg movies h) c)
          → is_Some (_score
               (snd (result (Enhanced.filter_loop fromisoformat cfg movies h) c) r))).
Proof.
  unfold result. induction movies as [|r rest IH]; intros h c.
  - simpl. repeat split; try reflexivity. intros r Hr. by apply elem_of_nil in Hr.
  - rewrite filter_loop_cons. simpl. destruct (admitted cfg (h r)) eqn:Ha.
    + destruct (Enhanced.calculate_movie_score fromisoformat (h r) c) as [s c1].
      simpl.
      destruct (IH (store h r (with_score (h r) s)) c1) as (K & W & F & S).
      destruct (Enhanced.filter_loop _ _ _ _ _) as [[kept h'] c2].
      simpl in *. repeat split.
      * rewrite K. f_equal. apply List.filter_ext. intros r'.
        apply admitted_without_score, without_score_store.
      * intros r'. by rewrite W, without_score_store.
      * intros r' Hr'. apply not_elem_of_cons in Hr' as [Hne Hr'].
        rewrite (F r' Hr'). unfold store.
        destruct (Nat.eqb_spec r' r); [contradiction | reflexivity].
      * intros r' Hr'. destruct (decide (r' ∈ kept)) as [Hin|Hin]; [by apply S|].
        apply elem_of_cons in Hr' as [->|Hr']; [|contradiction].
        rewrite (F r Hin). unfold store. rewrite Nat.eqb_refl. by eexists.
    + apply IH.
Qed.

Lemma filter_high_rated_movies_result (movies : list ref) (h : heap) (c : clock) :
  result (Enhanced.filter_high_rated_movies fromisoformat cfg movies h) c
  = (list_sort_reverse
       (Enhanced.sort_key
          (snd (result (Enhanced.filter_loop fromisoformat cfg movies h) c)))
       (fst (result (Enhanced.filter_loop fromisoformat cfg movies h) c)),
     snd (result (Enhanced.filter_loop fromisoformat cfg movies h) c)).
Proof.
  unfold result, Enhanced.filter_high_rated_movies, bind, ret.
  by destruct (Enhanced.filter_loop _ _ _ _ _) as [[kept h'] c2].
Qed.

Lemma admitted_spec (m : movie) :
  admitted cfg m = true
  ↔ (min_rating cfg <= default 0 (rating m))%Q
    ∧ min_year cfg <= default 0 (year m)
    ∧ (∀ g, g ∈ default [] (genres m) → g ∉ excluded_genres cfg).
Proof.
  unfold admitted. rewrite !andb_true_iff, Qle_bool_iff, Z.leb_le,
    bool_decide_eq_true.
  unfold get_rating, get_year, get_genres.
  split; intros ((Hr & Hy) & Hg) || intros (Hr & Hy & Hg).
  - repeat split; [assumption..|]. intros g Hin Hex.
    assert (g ∈ (list_to_set (default [] (genres m)) : gset string)
                ∩ excluded_genres cfg) as Hg'
      by (apply elem_of_intersection; split;
          [by apply elem_of_list_to_set | assumption]).
    rewrite Hg in Hg'. by apply not_elem_of_empty in Hg'.
  - repeat split; [assumption..|]. apply set_eq. intros g. split.
    + intros [Hin Hex]%elem_of_intersection.
      apply elem_of_list_to_set in Hin. by destruct (Hg g Hin).
    + intros Hin. by apply not_elem_of_empty in Hin.
Qed.

End AdmissionFacts.

Section AdmissionClaims.

Variable fromisoformat : string → option datetime.
Variable cfg : config.

(** C1.  An entry is in the list [filter_high_rated_movies] returns exactly
    when it is in the input, its rating (0 when the key is absent) is at
    least [MIN_RATING], its year (0 when absent) is at least [MIN_YEAR], and
    none of its genres is excluded. *)
Theorem admission_criterion (movies : list ref) (h : heap) (c : clock) (r : ref) :
  r ∈ fst (result (Enhanced.filter_high_rated_movies fromisoformat cfg movies h) c)
  ↔ r ∈ movies
    ∧ (min_rating cfg <= default 0 (rating (h r)))%Q
    ∧ min_year cfg <= default 0 (year (h r))
    ∧ (∀ g, g ∈ default [] (genres (h r)) → g ∉ excluded_genres cfg).
Proof.
  rewrite filter_high_rated_movies_result. simpl.
  rewrite list_sort_reverse_perm.
  destruct (filter_loop_spec fromisoformat cfg movies h c) as (K & _).
  rewrite K, <- admitted_spec, list_elem_of_In, filter_In, <- list_elem_of_In.
  reflexivity.
Qed.

(** C9 (as amended).  [filter_high_rated_movies] changes no key of any dict
    other than ['_score']; it leaves the dicts it does not return exactly as
    they were, and sets ['_score'] on the ones it returns. *)
Theorem admit_frame (movies : list ref) (h : heap) (c : clock) :
  let res := result (Enhanced.filter_high_rated_movies fromisoformat cfg movies h) c in
  (∀ r, without_score (snd res r) = without_score (h r))
  ∧ (∀ r, r ∉ fst res → snd res r = h r)
  ∧ (∀ r, r ∈ fst res → is_Some (_score (snd res r))).
Proof.
  intros res. subst res. rewrite filter_high_rated_movies_result. simpl.
  destruct (filter_loop_spec fromisoformat cfg movies h c) as (_ & W & F & S).
  repeat split.
  - exact W.
  - intros r Hr. apply F. by rewrite list_sort_reverse_perm in Hr.
  - intros r Hr. apply S. by rewrite list_sort_reverse_perm in Hr.
Qed.

End AdmissionClaims.

(** C5, counterexample.  Both entries are admitted; the second of the input
    has the higher score and is returned first, so the output is not a
    subsequence of the input. *)
Lemma admit_reorders :
  fst (result (Enhanced.filter_high_rated_movies Iso.fromisoformat
                 Enhanced.defaults [0%nat; 1%nat] Sample.shelf)
              (Sample.clock_from Sample.t_now))
  = [1%nat; 0%nat]
  ∧ ¬ sublist
        (fst (result (Enhanced.filter_high_rated_movies Iso.fromisoformat
                        Enhanced.defaults [0%nat; 1%nat] Sample.shelf)
                     (Sample.clock_from Sample.t_now)))
        [0%nat; 1%nat].
Proof.
  assert (fst (result (Enhanced.filter_high_rated_movies Iso.fromisoformat
                 Enhanced.defaults [0%nat; 1%nat] Sample.shelf)
              (Sample.clock_from Sample.t_now)) = [1%nat; 0%nat]) as E
    by (vm_compute; reflexivity).
  split; [exact E|]. rewrite E. intros H.
  apply sublist_cons_r in H as [H | (l' & Hl & _)]; [|discriminate].
  apply sublist_cons_r in H as [H | (l' & Hl & H)].
  - by apply sublist_nil_r in H.
  - inversion Hl; subst. by apply sublist_nil_r in H.
Qed.

(** C9, counterexample.  The admitted dict at reference 1 has no key
    ['_score'] before the call and has one after it. *)
Lemma admit_writes_score :
  _score (Sample.shelf 1%nat) = None
  ∧ _score (snd (result (Enhanced.filter_high_rated_movies Iso.fromisoformat
                           Enhanced.defaults [0%nat; 1%nat] Sample.shelf)
                        (Sample.clock_from Sample.t_now)) 1%nat)
    = Some (2547 # 10)%Q
  ∧ snd (result (Enhanced.filter_high_rated_movies Iso.fromisoformat
                   Enhanced.defaults [0%nat; 1%nat] Sample.shelf)
                (Sample.clock_from Sample.t_now)) 1%nat
    ≠ Sample.shelf 1%nat.
Proof.
  assert (_score (snd (result (Enhanced.filter_high_rated_movies Iso.fromisoformat
                           Enhanced.defaults [0%nat; 1%nat] Sample.shelf)
                        (Sample.clock_from Sample.t_now)) 1%nat)
          = Some (2547 # 10)%Q) as E by (vm_compute; reflexivity).
  split; [reflexivity|]. split; [exact E|].
  intros H. rewrite H in E. discriminate.
Qed.

(** ** The scorer *)

Section ScorerFacts.

Variable fromisoformat : string → option datetime.

(** The score as the sum of its contributions. *)
Lemma calculate_movie_score_sum (m : movie) (c : clock) :
  result (Enhanced.calculate_movie_score fromisoformat m) c
  = (0 + get_rating m * 3
     + inject_Z (result (Enhanced.listing_bonus fromisoformat m) c)
     + inject_Z (Enhanced.year_bonus (get_year m)
                   (current_year (snd (Enhanced.listing_bonus fromisoformat m c))))
     + inject_Z (Enhanced.genre_bonus (get_genres m))
     + inject_Z (Enhanced.torrent_bonus (get_torrents m))
     + inject_Z (Enhanced.title_bonus (get_title m)))%Q.
Proof.
  unfold result, Enhanced.calculate_movie_score, bind, ret.
  by destruct (Enhanced.listing_bonus fromisoformat m c) as [lb c1].
Qed.

Lemma listing_bonus_absent (m : movie) (c : clock) :
  date_uploaded m = None ∨ date_uploaded m = Some EmptyString →
  Enhanced.listing_bonus fromisoformat m c = (0, c).
Proof.
  unfold Enhanced.listing_bonus, get_date_uploaded. by intros [-> | ->].
Qed.

Lemma nonempty_eqb (s : string) : s ≠ EmptyString → String.eqb s "" = false.
Proof. intros H. by apply String.eqb_neq. Qed.

Lemma listing_bonus_unparsed (m : movie) (c : clock) (s : string) :
  date_uploaded m = Some s → s ≠ EmptyString →
  fromisoformat (Str.replace_Z s) = None →
  Enhanced.listing_bonus fromisoformat m c = (15, c).
Proof.
  unfold Enhanced.listing_bonus, get_date_uploaded. intros -> Hs Hp. simpl.
  by rewrite (nonempty_eqb s Hs), Hp.
Qed.

Lemma listing_bonus_parsed (m : movie) (c : clock) (s : string) (d : datetime) :
  date_uploaded m = Some s → s ≠ EmptyString →
  fromisoformat (Str.replace_Z s) = Some d →
  Enhanced.listing_bonus fromisoformat m c
  = (Enhanced.recency_tier (elapsed c d), λ n, c (S n)).
Proof.
  unfold Enhanced.listing_bonus, get_date_uploaded. intros -> Hs Hp. simpl.
  by rewrite (nonempty_eqb s Hs), Hp.
Qed.

Lemma recency_tier_cases (e : Z) :
  (e ≤ 24 * usec_per_hour → Enhanced.recency_tier e = 100)
  ∧ (24 * usec_per_hour < e ≤ 72 * usec_per_hour → Enhanced.recency_tier e = 60)
  ∧ (72 * usec_per_hour < e ≤ 168 * usec_per_hour → Enhanced.recency_tier e = 40)
  ∧ (168 * usec_per_hour < e ≤ 720 * usec_per_hour → Enhanced.recency_tier e = 20)
  ∧ (720 * usec_per_hour < e → Enhanced.recency_tier e = 10).
Proof.
  unfold Enhanced.recency_tier, usec_per_hour.
  repeat split; intros H; repeat case_match; lia.
Qed.

Lemma recency_tier_upper (e : Z) :
  24 * usec_per_hour < e → Enhanced.recency_tier e ≤ 60.
Proof.
  unfold Enhanced.recency_tier, usec_per_hour. intros H.
  repeat case_match; lia.
Qed.

End ScorerFacts.

Section ScorerClaims.

Variable fromisoformat : string → option datetime.

(** C2 (as amended).  The score is the sum of its contributions, one of
    which is the listing-recency bonus.  For a timestamp that parses, the
    bonus is 100, 60, 40, 20 or 10 according to the tier of the time elapsed
    since the listing (at most 24 h, 72 h, 168 h, 720 h, or more), so an
    entry listed at most 24 h ago scores strictly higher than the same entry
    listed earlier than that.  For a non-empty timestamp that does not
    parse, the bonus is the flat 15.  For an absent or empty timestamp
    there is no bonus. *)
Theorem listing_recency (m : movie) (c : clock) :
  result (Enhanced.calculate_movie_score fromisoformat m) c
  = (0 + get_rating m * 3
     + inject_Z (result (Enhanced.listing_bonus fromisoformat m) c)
     + inject_Z (Enhanced.year_bonus (get_year m)
                   (current_year (snd (Enhanced.listing_bonus fromisoformat m c))))
     + inject_Z (Enhanced.genre_bonus (get_genres m))
     + inject_Z (Enhanced.torrent_bonus (get_torrents m))
     + inject_Z (Enhanced.title_bonus (get_title m)))%Q
  ∧ (∀ s d,
       date_uploaded m = Some s → s ≠ EmptyString →
       fromisoformat (Str.replace_Z s) = Some d →
       (elapsed c d ≤ 24 * usec_per_hour →
        result (Enhanced.listing_bonus fromisoformat m) c = 100)
       ∧ (24 * usec_per_hour < elapsed c d ≤ 72 * usec_per_hour →
          result (Enhanced.listing_bonus fromisoformat m) c = 60)
       ∧ (72 * usec_per_hour < elapsed c d ≤ 168 * usec_per_hour →
          result (Enhanced.listing_bonus fromisoformat m) c = 40)
       ∧ (168 * usec_per_hour < elapsed c d ≤ 720 * usec_per_hour →
          result (Enhanced.listing_bonus fromisoformat m) c = 20)
       ∧ (720 * usec_per_hour < elapsed c d →
          result (Enhanced.listing_bonus fromisoformat m) c = 10))
  ∧ (∀ s,
       date_uploaded m = Some s → s ≠ EmptyString →
       fromisoformat (Str.replace_Z s) = None →
       result (Enhanced.listing_bonus fromisoformat m) c = 15)
  ∧ (date_uploaded m = None ∨ date_uploaded m = Some EmptyString →
     result (Enhanced.listing_bonus fromisoformat m) c = 0)
  ∧ (∀ s1 s2 d1 d2,
       s1 ≠ EmptyString → s2 ≠ EmptyString →
       fromisoformat (Str.replace_Z s1) = Some d1 →
       fromisoformat (Str.replace_Z s2) = Some d2 →
       elapsed c d1 ≤ 24 * usec_per_hour →
       24 * usec_per_hour < elapsed c d2 →
       (result (Enhanced.calculate_movie_score fromisoformat (with_date m s2)) c
        < result (Enhanced.calculate_movie_score fromisoformat (with_date m s1)) c)%Q).
Proof.
  split; [apply calculate_movie_score_sum|]. split; [|split; [|split]].
  - intros s d Hd Hs Hp. unfold result.
    rewrite (listing_bonus_parsed _ m c s d Hd Hs Hp). simpl.
    apply recency_tier_cases.
  - intros s Hd Hs Hp. unfold result.
    by rewrite (listing_bonus_unparsed _ m c s Hd Hs Hp).
  - intros Hd. unfold result. by rewrite (listing_bonus_absent _ m c Hd).
  - intros s1 s2 d1 d2 Hs1 Hs2 Hp1 Hp2 He1 He2.
    rewrite !calculate_movie_score_sum. unfold result.
    rewrite (listing_bonus_parsed _ (with_date m s1) c s1 d1 eq_refl Hs1 Hp1).
    rewrite (listing_bonus_parsed _ (with_date m s2) c s2 d2 eq_refl Hs2 Hp2).
    simpl.
    rewrite (proj1 (recency_tier_cases (elapsed c d1)) He1).
    pose proof (recency_tier_upper _ He2) as Hu. rewrite Zle_Qle in Hu.
    change (get_rating (with_date m s1)) with (get_rating m).
    change (get_rating (with_date m s2)) with (get_rating m).
    change (get_year (with_date m s1)) with (get_year m).
    change (get_year (with_date m s2)) with (get_year m).
    change (get_genres (with_date m s1)) with (get_genres m).
    change (get_genres (with_date m s2)) with (get_genres m).
    change (get_torrents (with_date m s1)) with (get_torrents m).
    change (get_torrents (with_date m s2)) with (get_torrents m).
    change (get_title (with_date m s1)) with (get_title m).
    change (get_title (with_date m s2)) with (get_title m).
    change (inject_Z 60) with 60%Q in Hu. change (inject_Z 100) with 100%Q.
    lra.
Qed.

(** C8 (as amended).  [calculate_movie_score] takes the entry only and
    reads the system clock itself.  Two evaluations on the same entry agree
    whenever the clock shows them the same two instants. *)
Theorem score_given_clock_readings (m : movie) (c1 c2 : clock) :
  c1 0%nat = c2 0%nat → c1 1%nat = c2 1%nat →
  result (Enhanced.calculate_movie_score fromisoformat m) c1
  = result (Enhanced.calculate_movie_score fromisoformat m) c2.
Proof.
  intros H0 H1. rewrite !calculate_movie_score_sum.
  unfold result, Enhanced.listing_bonus, current_year, elapsed.
  destruct (String.eqb (get_date_uploaded m) ""); simpl.
  - by rewrite H0.
  - destruct (fromisoformat _) as [d|]; simpl.
    + by rewrite H0, H1.
    + by rewrite H0.
Qed.

Lemma total_seeds_insert (ts : list torrent) : ∀ (i : nat) (t : torrent) (v : Z),
  ts !! i = Some t →
  total_seeds (<[i := with_seeds t v]> ts) = total_seeds ts - get_seeds t + v.
Proof.
  induction ts as [|t' ts IH]; intros i t v Hi; [discriminate|].
  destruct i as [|i]; simpl in *.
  - inversion Hi; subst. unfold get_seeds at 1. simpl. lia.
  - rewrite (IH i t v Hi). lia.
Qed.

Lemma torrent_bonus_nonempty (ts : list torrent) :
  ts ≠ [] →
  Enhanced.torrent_bonus ts
  = Z.min (Z.of_nat (length ts)) 3 * 2 + Enhanced.seed_bonus (total_seeds ts)
  ∧ Basic.torrent_bonus ts
    = Z.min (Z.of_nat (length ts)) 3 * 2 + Basic.seed_bonus (total_seeds ts).
Proof. by destruct ts. Qed.

Lemma seed_bonus_mono (a b : Z) :
  a ≤ b →
  Enhanced.seed_bonus a ≤ Enhanced.seed_bonus b
  ∧ Basic.seed_bonus a ≤ Basic.seed_bonus b.
Proof.
  unfold Enhanced.seed_bonus, Basic.seed_bonus. intros H.
  split; repeat case_match; lia.
Qed.

Lemma torrent_bonus_mono (ts : list torrent) (i : nat) (t : torrent) (v : Z) :
  ts !! i = Some t → get_seeds t < v →
  Enhanced.torrent_bonus ts ≤ Enhanced.torrent_bonus (<[i := with_seeds t v]> ts)
  ∧ Basic.torrent_bonus ts ≤ Basic.torrent_bonus (<[i := with_seeds t v]> ts).
Proof.
  intros Hi Hv.
  assert (ts ≠ []) as Hne by (intros ->; discriminate).
  assert (<[i := with_seeds t v]> ts ≠ []) as Hne'.
  { intros E. apply (f_equal length) in E. rewrite length_insert in E.
    by destruct ts. }
  destruct (torrent_bonus_nonempty _ Hne) as [-> ->].
  destruct (torrent_bonus_nonempty _ Hne') as [-> ->].
  rewrite length_insert, (total_seeds_insert ts i t v Hi).
  destruct (seed_bonus_mono (total_seeds ts)
              (total_seeds ts - get_seeds t + v)) as [He Hb]; [lia|].
  lia.
Qed.

Lemma basic_score_sum (m : movie) (c : clock) :
  result (Basic.calculate_movie_score m) c
  = (0 + get_rating m * 2
     + inject_Z (Basic.year_bonus (get_year m) (current_year c))
     + inject_Z (Basic.genre_bonus (get_genres m))
     + inject_Z (Basic.torrent_bonus (get_torrents m)))%Q.
Proof. reflexivity. Qed.

(** C7.  Raising the seed count of one distribution variant, all else and
    the clock being the same, does not lower the score: neither the one of
    [enhanced_movie_notifier.py] nor the one of [movie_notifier.py]. *)
Theorem score_monotone_in_seeds
  (m : movie) (ts : list torrent) (i : nat) (t : torrent) (v : Z) (c : clock) :
  torrents m = Some ts → ts !! i = Some t → get_seeds t < v →
  (result (Enhanced.calculate_movie_score fromisoformat m) c
   <= result (Enhanced.calculate_movie_score fromisoformat
                (with_torrents m (<[i := with_seeds t v]> ts))) c)%Q
  ∧ (result (Basic.calculate_movie_score m) c
     <= result (Basic.calculate_movie_score
                  (with_torrents m (<[i := with_seeds t v]> ts))) c)%Q.
Proof.
  intros Hts Hi Hv.
  destruct (torrent_bonus_mono ts i t v Hi Hv) as [He Hb].
  rewrite Zle_Qle in He. rewrite Zle_Qle in Hb.
  rewrite !calculate_movie_score_sum, !basic_score_sum.
  change (Enhanced.listing_bonus fromisoformat
            (with_torrents m (<[i := with_seeds t v]> ts)) c)
    with (Enhanced.listing_bonus fromisoformat m c).
  unfold get_torrents at 1 3. rewrite Hts. simpl.
  set (ts' := <[i := with_seeds t v]> ts) in *.
  change (get_rating (with_torrents m ts')) with (get_rating m).
  change (get_year (with_torrents m ts')) with (get_year m).
  change (get_genres (with_torrents m ts')) with (get_genres m).
  change (get_title (with_torrents m ts')) with (get_title m).
  change (get_torrents (with_torrents m ts')) with ts'.
  change (result (Enhanced.listing_bonus fromisoformat (with_torrents m ts')) c)
    with (result (Enhanced.listing_bonus fromisoformat m) c).
  split; lra.
Qed.

End ScorerClaims.

(** C2, counterexample.  An entry without a timestamp gets no recency bonus,
    the same entry with a timestamp that does not parse gets 15: the two
    scores differ. *)
Lemma missing_timestamp_no_bonus :
  result (Enhanced.listing_bonus Iso.fromisoformat Sample.quiet)
         (Sample.clock_from Sample.t_now) = 0
  ∧ result (Enhanced.listing_bonus Iso.fromisoformat Sample.quiet_garbled)
           (Sample.clock_from Sample.t_now) = 15
  ∧ ¬ (result (Enhanced.calculate_movie_score Iso.fromisoformat Sample.quiet)
              (Sample.clock_from Sample.t_now)
       == result (Enhanced.calculate_movie_score Iso.fromisoformat
                    Sample.quiet_garbled)
                 (Sample.clock_from Sample.t_now))%Q.
Proof.
  split; [by vm_compute|]. split; [by vm_compute|].
  unfold Qeq. vm_compute. discriminate.
Qed.

Lemma listing_recency_witness :
  result (Enhanced.listing_bonus Iso.fromisoformat Sample.horror)
         (Sample.clock_from Sample.t_now) = 100
  ∧ (result (Enhanced.calculate_movie_score Iso.fromisoformat Sample.horror_old)
            (Sample.clock_from Sample.t_now)
     < result (Enhanced.calculate_movie_score Iso.fromisoformat Sample.horror)
              (Sample.clock_from Sample.t_now))%Q
  ∧ result (Enhanced.listing_bonus Iso.fromisoformat Sample.quiet_garbled)
           (Sample.clock_from Sample.t_now) = 15
  ∧ result (Enhanced.listing_bonus Iso.fromisoformat Sample.quiet)
           (Sample.clock_from Sample.t_now) = 0.
Proof.
  assert (Iso.fromisoformat (Str.replace_Z "2025-06-20 10:36:40")
          = Some {| wall := 1750415800000000; tzinfo := None |}) as Hnew
    by (vm_compute; reflexivity).
  assert (Iso.fromisoformat (Str.replace_Z "2025-06-12 04:36:40")
          = Some {| wall := 1749703000000000; tzinfo := None |}) as Hold
    by (vm_compute; reflexivity).
  assert (Iso.fromisoformat (Str.replace_Z "yesterday") = None) as Hbad
    by (vm_compute; reflexivity).
  destruct (listing_recency Iso.fromisoformat Sample.horror
              (Sample.clock_from Sample.t_now)) as (_ & Htier & _ & _ & Hlt).
  destruct (listing_recency Iso.fromisoformat Sample.quiet_garbled
              (Sample.clock_from Sample.t_now)) as (_ & _ & Hflat & _).
  destruct (listing_recency Iso.fromisoformat Sample.quiet
              (Sample.clock_from Sample.t_now)) as (_ & _ & _ & Hnone & _).
  split; [|split; [|split]].
  - apply (Htier "2025-06-20 10:36:40"%string _ eq_refl ltac:(discriminate) Hnew).
    vm_compute. discriminate.
  - apply (Hlt "2025-06-20 10:36:40"%string "2025-06-12 04:36:40"%string _ _
             ltac:(discriminate) ltac:(discriminate) Hnew Hold);
      vm_compute; [discriminate | reflexivity].
  - apply (Hflat "yesterday"%string eq_refl ltac:(discriminate) Hbad).
  - apply Hnone. by left.
Defined.

(** C8, counterexample.  The same entry scores 254.7 when the clock shows
    2025-06-20 and 164.7 when it shows a day 31 days later. *)
Lemma score_changes_with_clock :
  result (Enhanced.calculate_movie_score Iso.fromisoformat Sample.horror)
         (Sample.clock_from Sample.t_now) = (2547 # 10)%Q
  ∧ result (Enhanced.calculate_movie_score Iso.fromisoformat Sample.horror)
           (Sample.clock_from Sample.t_later) = (1647 # 10)%Q
  ∧ ¬ (result (Enhanced.calculate_movie_score Iso.fromisoformat Sample.horror)
              (Sample.clock_from Sample.t_now)
       == result (Enhanced.calculate_movie_score Iso.fromisoformat Sample.horror)
                 (Sample.clock_from Sample.t_later))%Q.
Proof.
  split; [by vm_compute|]. split; [by vm_compute|].
  unfold Qeq. vm_compute. discriminate.
Qed.

Lemma score_given_clock_readings_witness :
  Sample.clock_from Sample.t_now 2%nat ≠ Sample.clock_two Sample.t_now 2%nat
  ∧ result (Enhanced.calculate_movie_score Iso.fromisoformat Sample.horror)
           (Sample.clock_from Sample.t_now)
    = result (Enhanced.calculate_movie_score Iso.fromisoformat Sample.horror)
             (Sample.clock_two Sample.t_now).
Proof.
  split; [by vm_compute|].
  apply (score_given_clock_readings Iso.fromisoformat Sample.horror
           (Sample.clock_from Sample.t_now) (Sample.clock_two Sample.t_now));
    reflexivity.
Defined.

Lemma score_monotone_in_seeds_witness :
  (result (Enhanced.calculate_movie_score Iso.fromisoformat Sample.horror)
          (Sample.clock_from Sample.t_now)
   <= result (Enhanced.calculate_movie_score Iso.fromisoformat
                (with_torrents Sample.horror Sample.popular_variants))
             (Sample.clock_from Sample.t_now))%Q
  ∧ (result (Basic.calculate_movie_score Sample.horror)
            (Sample.clock_from Sample.t_now)
     <= result (Basic.calculate_movie_score
                  (with_torrents Sample.horror Sample.popular_variants))
               (Sample.clock_from Sample.t_now))%Q.
Proof.
  apply (score_monotone_in_seeds Iso.fromisoformat Sample.horror
           [ mkTorrent (Some "720p") (Some "1.1 GB") (Some 120);
             mkTorrent (Some "1080p") (Some "2.2 GB") None ]
           1%nat (mkTorrent (Some "1080p") (Some "2.2 GB") None) 500
           (Sample.clock_from Sample.t_now)); reflexivity.
Defined.

(** * Further properties *)

(** ** One call and several calls of [get_new_movies] *)

Section NoveltyMore.

Implicit Types (movies : list movie) (known : gset pykey) (m : movie).

Lemma sublist_elem {A : Type} (l1 l2 : list A) (x : A) :
  sublist l1 l2 → x ∈ l1 → x ∈ l2.
Proof.
  induction 1 as [|y l1 l2 _ IH|y l1 l2 _ IH]; intros Hx.
  - exact Hx.
  - apply elem_of_cons in Hx as [->|Hx]; [by left | right; by apply IH].
  - right. by apply IH.
Qed.

(** X1.  One call of [get_new_movies] returns a subsequence of the batch
    whose identifiers are pairwise distinct, and an identifier is among them
    exactly when it was not known before and some movie of the batch carries
    it as a truthy identifier: nothing new is missed, and of several movies
    with one identifier only one is returned. *)
Theorem get_new_movies_exact movies known :
  sublist (fst (Enhanced.get_new_movies movies known)) movies
  ∧ NoDup (id_keys (fst (Enhanced.get_new_movies movies known)))
  ∧ (∀ k, k ∈ id_keys (fst (Enhanced.get_new_movies movies known))
          ↔ (k ∉ known)
            ∧ ∃ m, m ∈ movies ∧ truthy (get_id m) = true ∧ id_key m = k).
Proof.
  destruct (get_new_movies_spec movies known) as (E & N & F & T & S).
  split; [exact S|]. split; [exact N|]. intros k. split.
  - intros Hk. split; [by apply F|].
    apply list_elem_of_fmap in Hk as (m & -> & Hm). exists m.
    rewrite Forall_forall in T. split; [|by split; [apply T|]].
    exact (sublist_elem _ _ m S Hm).
  - intros (Hk & m & Hm & Ht & <-).
    pose proof (get_new_movies_records movies known m Hm Ht) as Hin.
    rewrite E in Hin. apply elem_of_union in Hin as [Hin|Hin]; [|contradiction].
    by apply elem_of_list_to_set in Hin.
Qed.

(** X2.  Handling batches one after the other returns, in all, what one
    call on their concatenation returns, and leaves the same set. *)
Theorem polling_as_one_call (batches : list (list movie)) : ∀ known,
  concat (fst (Enhanced.polling batches known))
  = fst (Enhanced.get_new_movies (concat batches) known)
  ∧ snd (Enhanced.polling batches known)
    = snd (Enhanced.get_new_movies (concat batches) known).
Proof.
  induction batches as [|b later IH]; intros known; simpl; [by split|].
  rewrite get_new_movies_app. simpl.
  destruct (Enhanced.get_new_movies b known) as [new known1]; simpl.
  destruct (IH known1) as [IH1 IH2].
  destruct (Enhanced.polling later known1) as [outs final]; simpl in *.
  by rewrite IH1, IH2.
Qed.

End NoveltyMore.

(** ** The entries [filter_high_rated_movies] returns *)

Section AdmissionMore.

Variable fromisoformat : string → option datetime.
Variable cfg : config.

Lemma score_without_score (m m' : movie) (c : clock) :
  without_score m = without_score m' →
  Enhanced.calculate_movie_score fromisoformat m c
  = Enhanced.calculate_movie_score fromisoformat m' c.
Proof.
  intros H.
  change (Enhanced.calculate_movie_score fromisoformat (without_score m) c
          = Enhanced.calculate_movie_score fromisoformat (without_score m') c).
  by rewrite H.
Qed.

(** The scorer looks at the first two readings of the clock at most. *)
Lemma score_clock_ext (m : movie) (c1 c2 : clock) :
  (∀ n, c1 n = c2 n) →
  result (Enhanced.calculate_movie_score fromisoformat m) c1
  = result (Enhanced.calculate_movie_score fromisoformat m) c2.
Proof.
  intros H. rewrite !calculate_movie_score_sum.
  unfold result, Enhanced.listing_bonus, current_year, elapsed.
  destruct (String.eqb (get_date_uploaded m) ""); simpl.
  - by rewrite (H 0%nat).
  - destruct (fromisoformat _) as [d|]; simpl.
    + by rewrite (H 0%nat), (H 1%nat).
    + by rewrite (H 0%nat).
Qed.

(** It consumes one or two readings. *)
Lemma score_clock_after (m : movie) (c : clock) :
  ∃ j : nat, ∀ n, snd (Enhanced.calculate_movie_score fromisoformat m c) n
                  = c (j + n)%nat.
Proof.
  unfold Enhanced.calculate_movie_score, Enhanced.listing_bonus, bind, ret,
    datetime_now.
  destruct (String.eqb (get_date_uploaded m) ""); simpl.
  - by exists 1%nat.
  - destruct (fromisoformat _) as [d|]; simpl; [by exists 2%nat | by exists 1%nat].
Qed.

(** Every kept entry carries the score the scorer gives it at the reading of
    the clock at which the loop reaches it. *)
Lemma filter_loop_scores (movies : list ref) : ∀ (h : heap) (c : clock) (r : ref),
  r ∈ fst (result (Enhanced.filter_loop fromisoformat cfg movies h) c) →
  ∃ k : nat,
    _score (snd (result (Enhanced.filter_loop fromisoformat cfg movies h) c) r)
    = Some (result (Enhanced.calculate_movie_score fromisoformat (h r))
                   (later k c)).
Proof.
  induction movies as [|r0 rest IH]; intros h c r Hr.
  - by apply elem_of_nil in Hr.
  - revert Hr. unfold result. rewrite filter_loop_cons.
    destruct (admitted cfg (h r0)); [|apply IH].
    simpl. pose proof (score_clock_after (h r0) c) as [j Hj].
    destruct (Enhanced.calculate_movie_score fromisoformat (h r0) c)
      as [s c1] eqn:Es. simpl in *.
    pose proof (IH (store h r0 (with_score (h r0) s)) c1 r) as IHr.
    destruct (filter_loop_spec fromisoformat cfg rest
                (store h r0 (with_score (h r0) s)) c1) as (_ & _ & F & _).
    unfold result in *.
    destruct (Enhanced.filter_loop _ _ _ _ _) as [[kept h'] c2]. simpl in *.
    intros Hr. destruct (decide (r ∈ kept)) as [Hin|Hin].
    + destruct (IHr Hin) as [k Hk]. exists (k + j)%nat. rewrite Hk. f_equal.
      rewrite (score_without_score _ (h r) _ (without_score_store h r0 r s)).
      apply score_clock_ext. intros n. unfold later. rewrite Hj. f_equal. lia.
    + apply elem_of_cons in Hr as [->|Hr]; [|contradiction].
      exists 0%nat. rewrite (F r0 Hin). unfold store. rewrite Nat.eqb_refl.
      simpl. f_equal.
      change s with (fst (s, c1)). rewrite <- Es. by apply score_clock_ext.
Qed.

(** X3.  Every entry [filter_high_rated_movies] returns carries, under
    ['_score'], the value [calculate_movie_score] gives that entry at some
    reading of the clock at or after the start of the call. *)
Theorem returned_entries_scored
  (movies : list ref) (h : heap) (c : clock) (r : ref) :
  r ∈ fst (result (Enhanced.filter_high_rated_movies fromisoformat cfg movies h) c) →
  ∃ k : nat,
    _score (snd (result (Enhanced.filter_high_rated_movies fromisoformat cfg
                           movies h) c) r)
    = Some (result (Enhanced.calculate_movie_score fromisoformat (h r))
                   (later k c)).
Proof.
  rewrite filter_high_rated_movies_result. simpl.
  rewrite list_sort_reverse_perm. apply filter_loop_scores.
Qed.

Lemma filter_all_true {A : Type} (f : A → bool) (l : list A) :
  (∀ x, x ∈ l → f x = true) → List.filter f l = l.
Proof.
  induction l as [|x l IH]; intros H; simpl; [reflexivity|].
  rewrite (H x) by by left. f_equal. apply IH. intros y Hy. apply H. by right.
Qed.

(** X4.  Filtering again what [filter_high_rated_movies] returned, at any
    later time, rejects nothing and adds nothing: the second result is a
    rearrangement of the first. *)
Theorem filter_again_keeps_all
  (movies : list ref) (h : heap) (c c2 : clock) :
  fst (result (Enhanced.filter_high_rated_movies fromisoformat cfg
         (fst (result (Enhanced.filter_high_rated_movies fromisoformat cfg movies h) c))
         (snd (result (Enhanced.filter_high_rated_movies fromisoformat cfg movies h) c)))
       c2)
  ≡ₚ fst (result (Enhanced.filter_high_rated_movies fromisoformat cfg movies h) c).
Proof.
  rewrite (filter_high_rated_movies_result _ _ movies h c). simpl.
  destruct (filter_loop_spec fromisoformat cfg movies h c) as (K & W & _).
  rewrite filter_high_rated_movies_result. simpl.
  rewrite list_sort_reverse_perm.
  match goal with |- context [result (Enhanced.filter_loop _ _ ?l ?h') c2] =>
    destruct (filter_loop_spec fromisoformat cfg l h' c2) as (K2 & _) end.
  rewrite K2. rewrite filter_all_true; [reflexivity|].
  intros r Hr. rewrite list_sort_reverse_perm, K in Hr.
  apply list_elem_of_In, filter_In in Hr as [_ Hr].
  by rewrite (admitted_without_score cfg _ (h r) (W r)).
Qed.

(** X5.  Under a positive [MIN_YEAR] every returned entry has the key
    ['year'], with a value of at least [MIN_YEAR]; under a positive
    [MIN_RATING] it has the key ['rating'], with a value of at least
    [MIN_RATING]. *)
Theorem returned_entries_have_keys
  (movies : list ref) (h : heap) (c : clock) (r : ref) :
  r ∈ fst (result (Enhanced.filter_high_rated_movies fromisoformat cfg movies h) c) →
  (0 < min_year cfg →
   ∃ y, year (snd (result (Enhanced.filter_high_rated_movies fromisoformat cfg
                             movies h) c) r) = Some y
        ∧ min_year cfg ≤ y)
  ∧ ((0 < min_rating cfg)%Q →
     ∃ q, rating (snd (result (Enhanced.filter_high_rated_movies fromisoformat cfg
                                 movies h) c) r) = Some q
          ∧ (min_rating cfg <= q)%Q).
Proof.
  rewrite filter_high_rated_movies_result. simpl.
  rewrite list_sort_reverse_perm.
  destruct (filter_loop_spec fromisoformat cfg movies h c) as (K & W & _).
  rewrite K. intros Hr. apply list_elem_of_In, filter_In in Hr as [_ Hr].
  apply admitted_spec in Hr as (Hq & Hy & _).
  pose proof (W r) as Hw. apply (f_equal year) in Hw as Hwy.
  apply (f_equal rating) in Hw as Hwr. simpl in Hwy, Hwr.
  rewrite Hwy, Hwr. split.
  - intros Hpos. destruct (year (h r)) as [y|]; simpl in Hy; [eauto|lia].
  - intros Hpos. destruct (rating (h r)) as [q|]; simpl in Hq; [eauto|lra].
Qed.

End AdmissionMore.

(** ** The order of the returned list *)

Section PresentationClaims.

Variable fromisoformat : string → option datetime.
Variable cfg : config.

(** C5 (as amended).  The returned list holds exactly the admitted entries
    of the input, each as often as it occurs there, so every returned entry
    occurs in the input.  It is in descending order of the score stored
    under ['_score'], entries of equal score in descending order of rating;
    the input order is kept among entries equal in both, and only among
    them.  An empty input gives an empty list. *)
Theorem admit_selects (movies : list ref) (h : heap) (c : clock) :
  let res := result (Enhanced.filter_high_rated_movies fromisoformat cfg movies h) c in
  fst res ≡ₚ List.filter (λ r, admitted cfg (h r)) movies
  ∧ (∀ r, r ∈ fst res → r ∈ movies)
  ∧ StronglySorted (λ a b, ranks_before (movie_key (snd res a))
                                        (movie_key (snd res b)))
                   (fst res)
  ∧ (∀ k, with_key (λ r, movie_key (snd res r)) k (fst res)
          = with_key (λ r, movie_key (snd res r)) k
              (List.filter (λ r, admitted cfg (h r)) movies))
  ∧ fst (result (Enhanced.filter_high_rated_movies fromisoformat cfg [] h) c) = [].
Proof.
  intros res. subst res. rewrite filter_high_rated_movies_result. simpl.
  destruct (filter_loop_spec fromisoformat cfg movies h c) as (K & _).
  rewrite K. split; [|split; [|split; [|split]]].
  - apply list_sort_reverse_perm.
  - intros r. rewrite list_sort_reverse_perm, list_elem_of_In, filter_In,
      <- list_elem_of_In. tauto.
  - exact (list_sort_reverse_sorted
             (Enhanced.sort_key
                (snd (result (Enhanced.filter_loop fromisoformat cfg movies h) c)))
             _).
  - intros k.
    exact (with_key_list_sort_reverse
             (Enhanced.sort_key
                (snd (result (Enhanced.filter_loop fromisoformat cfg movies h) c)))
             k _).
  - reflexivity.
Qed.

(** C6.  The returned list is in descending order of the score stored under
    ['_score'], entries of equal score in descending order of rating;
    entries equal in both stand in the order they had in the input.  The
    stored score of a returned entry is the one [calculate_movie_score]
    gives it at some reading of the clock during the call, and the rating
    is the one the entry had. *)
Theorem presentation_order (movies : list ref) (h : heap) (c : clock) :
  let res := result (Enhanced.filter_high_rated_movies fromisoformat cfg movies h) c in
  StronglySorted (λ a b, ranks_before (movie_key (snd res a))
                                      (movie_key (snd res b)))
                 (fst res)
  ∧ (∀ k, with_key (λ r, movie_key (snd res r)) k (fst res)
          = with_key (λ r, movie_key (snd res r)) k
              (List.filter (λ r, admitted cfg (h r)) movies))
  ∧ (∀ r, r ∈ fst res →
          ∃ k : nat,
            _score (snd res r)
            = Some (result (Enhanced.calculate_movie_score fromisoformat (h r))
                           (later k c)))
  ∧ (∀ r, rating (snd res r) = rating (h r)).
Proof.
  intros res. subst res. rewrite filter_high_rated_movies_result. simpl.
  destruct (filter_loop_spec fromisoformat cfg movies h c) as (K & W & _).
  split; [|split; [|split]].
  - exact (list_sort_reverse_sorted
             (Enhanced.sort_key
                (snd (result (Enhanced.filter_loop fromisoformat cfg movies h) c)))
             _).
  - intros k. rewrite <- K.
    exact (with_key_list_sort_reverse
             (Enhanced.sort_key
                (snd (result (Enhanced.filter_loop fromisoformat cfg movies h) c)))
             k _).
  - intros r Hr. rewrite list_sort_reverse_perm in Hr.
    by apply filter_loop_scores.
  - intros r. exact (f_equal rating (W r)).
Qed.

End PresentationClaims.

Lemma returned_entries_scored_witness :
  ∃ k : nat,
    _score (snd (result (Enhanced.filter_high_rated_movies Iso.fromisoformat
                           Enhanced.defaults [0%nat; 1%nat] Sample.shelf)
                        (Sample.clock_from Sample.t_now)) 1%nat)
    = Some (result (Enhanced.calculate_movie_score Iso.fromisoformat
                      (Sample.shelf 1%nat))
                   (later k (Sample.clock_from Sample.t_now))).
Proof.
  apply (returned_entries_scored Iso.fromisoformat Enhanced.defaults
           [0%nat; 1%nat] Sample.shelf (Sample.clock_from Sample.t_now) 1%nat).
  assert (fst (result (Enhanced.filter_high_rated_movies Iso.fromisoformat
                 Enhanced.defaults [0%nat; 1%nat] Sample.shelf)
              (Sample.clock_from Sample.t_now)) = [1%nat; 0%nat]) as ->
    by (vm_compute; reflexivity).
  by left.
Defined.

Lemma returned_entries_have_keys_witness :
  ∃ y, year (snd (result (Enhanced.filter_high_rated_movies Iso.fromisoformat
                            Enhanced.defaults [0%nat; 1%nat] Sample.shelf)
                         (Sample.clock_from Sample.t_now)) 1%nat) = Some y
       ∧ 2025 ≤ y.
Proof.
  apply (returned_entries_have_keys Iso.fromisoformat Enhanced.defaults
           [0%nat; 1%nat] Sample.shelf (Sample.clock_from Sample.t_now) 1%nat);
    [|reflexivity].
  assert (fst (result (Enhanced.filter_high_rated_movies Iso.fromisoformat
                 Enhanced.defaults [0%nat; 1%nat] Sample.shelf)
              (Sample.clock_from Sample.t_now)) = [1%nat; 0%nat]) as ->
    by (vm_compute; reflexivity).
  by left.
Defined.

(** ** The three scorers *)

Section ScorersMore.

Variable fromisoformat : string → option datetime.

Lemma interactive_score_sum (m : movie) (c : clock) :
  result (Interactive.calculate_movie_score fromisoformat m) c
  = (0 + get_rating m * 3
     + inject_Z (result (Enhanced.listing_bonus fromisoformat m) c)
     + inject_Z (Interactive.year_bonus (get_year m)
                   (current_year (snd (Enhanced.listing_bonus fromisoformat m c))))
     + inject_Z (Interactive.genre_bonus (get_genres m))
     + inject_Z (Interactive.title_bonus (get_title m))
     + inject_Z (Interactive.torrent_bonus (get_torrents m)))%Q.
Proof.
  unfold result, Interactive.calculate_movie_score, bind, ret.
  by destruct (Enhanced.listing_bonus fromisoformat m c) as [lb c1].
Qed.

Lemma recency_tier_bounds (e : Z) : 10 ≤ Enhanced.recency_tier e ≤ 100.
Proof. unfold Enhanced.recency_tier. repeat case_match; lia. Qed.

Lemma recency_tier_antitone (e1 e2 : Z) :
  e1 ≤ e2 → Enhanced.recency_tier e2 ≤ Enhanced.recency_tier e1.
Proof.
  unfold Enhanced.recency_tier, usec_per_hour. intros H.
  repeat case_match; lia.
Qed.

Lemma listing_bonus_bounds (m : movie) (c : clock) :
  0 ≤ result (Enhanced.listing_bonus fromisoformat m) c ≤ 100.
Proof.
  unfold result, Enhanced.listing_bonus.
  destruct (String.eqb _ _); simpl; [lia|].
  destruct (fromisoformat _) as [d|]; simpl; [|lia].
  pose proof (recency_tier_bounds (dt_sub (now_at (c 0%nat) (tzinfo d)) d)). lia.
Qed.

Lemma size_inter_le (gs X : gset string) : (size (gs ∩ X) ≤ size X)%nat.
Proof. apply subseteq_size, intersection_subseteq_r. Qed.

Lemma genre_bonus_bounds (gs : gset string) :
  0 ≤ Enhanced.genre_bonus gs ≤ 81
  ∧ 0 ≤ Basic.genre_bonus gs ≤ 41
  ∧ 0 ≤ Interactive.genre_bonus gs ≤ 63.
Proof.
  pose proof (size_inter_le gs Enhanced.high_priority_genres) as H1.
  pose proof (size_inter_le gs Enhanced.PREFERRED_GENRES) as H2.
  pose proof (size_inter_le gs Basic.PREFERRED_GENRES) as H3.
  pose proof (size_inter_le gs Interactive.high_priority_genres) as H4.
  pose proof (size_inter_le gs Interactive.PREFERRED_GENRES) as H5.
  assert (size Enhanced.high_priority_genres = 5%nat) as E1 by (by vm_compute).
  assert (size Enhanced.PREFERRED_GENRES = 11%nat) as E2 by (by vm_compute).
  assert (size Basic.PREFERRED_GENRES = 12%nat) as E3 by (by vm_compute).
  assert (size Interactive.high_priority_genres = 5%nat) as E4 by (by vm_compute).
  assert (size Interactive.PREFERRED_GENRES = 11%nat) as E5 by (by vm_compute).
  rewrite E1 in H1. rewrite E2 in H2. rewrite E3 in H3. rewrite E4 in H4.
  rewrite E5 in H5.
  unfold Enhanced.genre_bonus, Basic.genre_bonus, Interactive.genre_bonus.
  repeat split; repeat case_match; lia.
Qed.

Lemma torrent_bonus_bounds (ts : list torrent) :
  0 ≤ Enhanced.torrent_bonus ts ≤ 16
  ∧ 0 ≤ Basic.torrent_bonus ts ≤ 11
  ∧ 0 ≤ Interactive.torrent_bonus ts ≤ 11.
Proof.
  unfold Enhanced.torrent_bonus, Basic.torrent_bonus, Interactive.torrent_bonus,
    Enhanced.seed_bonus, Basic.seed_bonus, Interactive.seed_bonus.
  destruct ts as [|t ts]; [lia|].
  repeat split; repeat case_match; lia.
Qed.

Lemma title_bonus_bounds (t : string) :
  0 ≤ Enhanced.title_bonus t ≤ 60 ∧ 0 ≤ Interactive.title_bonus t ≤ 40.
Proof.
  unfold Enhanced.title_bonus, Interactive.title_bonus.
  repeat split; repeat case_match; lia.
Qed.

Lemma year_bonus_bounds (y cy : Z) :
  0 ≤ Enhanced.year_bonus y cy ≤ 25
  ∧ 0 ≤ Basic.year_bonus y cy ≤ 10
  ∧ 0 ≤ Interactive.year_bonus y cy ≤ 10.
Proof.
  unfold Enhanced.year_bonus, Basic.year_bonus, Interactive.year_bonus.
  repeat split; repeat case_match; lia.
Qed.

Lemma year_bonus_mono (y1 y2 cy : Z) :
  y1 ≤ y2 →
  Enhanced.year_bonus y1 cy ≤ Enhanced.year_bonus y2 cy
  ∧ Basic.year_bonus y1 cy ≤ Basic.year_bonus y2 cy
  ∧ Interactive.year_bonus y1 cy ≤ Interactive.year_bonus y2 cy.
Proof.
  unfold Enhanced.year_bonus, Basic.year_bonus, Interactive.year_bonus.
  intros H. repeat split; repeat case_match; lia.
Qed.

(** X6.  The integer bonuses a scorer adds on top of the weighted rating
    come to a total that is never negative and never more than 282
    ([enhanced_movie_notifier.py]), 62 ([movie_notifier.py]) or 224
    ([interactive_movie_bot.py]), whatever the entry, the clock and the
    current year. *)
Theorem bonus_bounds (m : movie) (c : clock) (cy : Z) :
  0 ≤ result (Enhanced.listing_bonus fromisoformat m) c
      + Enhanced.year_bonus (get_year m) cy
      + Enhanced.genre_bonus (get_genres m)
      + Enhanced.torrent_bonus (get_torrents m)
      + Enhanced.title_bonus (get_title m) ≤ 282
  ∧ 0 ≤ Basic.year_bonus (get_year m) cy
        + Basic.genre_bonus (get_genres m)
        + Basic.torrent_bonus (get_torrents m) ≤ 62
  ∧ 0 ≤ result (Enhanced.listing_bonus fromisoformat m) c
        + Interactive.year_bonus (get_year m) cy
        + Interactive.genre_bonus (get_genres m)
        + Interactive.title_bonus (get_title m)
        + Interactive.torrent_bonus (get_torrents m) ≤ 224.
Proof.
  pose proof (listing_bonus_bounds m c) as L.
  destruct (genre_bonus_bounds (get_genres m)) as (G1 & G2 & G3).
  destruct (torrent_bonus_bounds (get_torrents m)) as (T1 & T2 & T3).
  destruct (title_bonus_bounds (get_title m)) as (B1 & B3).
  destruct (year_bonus_bounds (get_year m) cy) as (Y1 & Y2 & Y3).
  repeat split; lia.
Qed.

(** X7.  A later release year, all else and the clock being the same, does
    not lower the score of any of the three scorers. *)
Theorem score_monotone_in_year (m : movie) (y1 y2 : Z) (c : clock) :
  y1 ≤ y2 →
  (result (Enhanced.calculate_movie_score fromisoformat (with_year m y1)) c
   <= result (Enhanced.calculate_movie_score fromisoformat (with_year m y2)) c)%Q
  ∧ (result (Basic.calculate_movie_score (with_year m y1)) c
     <= result (Basic.calculate_movie_score (with_year m y2)) c)%Q
  ∧ (result (Interactive.calculate_movie_score fromisoformat (with_year m y1)) c
     <= result (Interactive.calculate_movie_score fromisoformat (with_year m y2)) c)%Q.
Proof.
  intros Hy.
  rewrite !calculate_movie_score_sum, !basic_score_sum, !interactive_score_sum.
  change (Enhanced.listing_bonus fromisoformat (with_year m y1) c)
    with (Enhanced.listing_bonus fromisoformat m c).
  change (Enhanced.listing_bonus fromisoformat (with_year m y2) c)
    with (Enhanced.listing_bonus fromisoformat m c).
  change (result (Enhanced.listing_bonus fromisoformat (with_year m y1)) c)
    with (result (Enhanced.listing_bonus fromisoformat m) c).
  change (result (Enhanced.listing_bonus fromisoformat (with_year m y2)) c)
    with (result (Enhanced.listing_bonus fromisoformat m) c).
  change (get_rating (with_year m y1)) with (get_rating m).
  change (get_rating (with_year m y2)) with (get_rating m).
  change (get_genres (with_year m y1)) with (get_genres m).
  change (get_genres (with_year m y2)) with (get_genres m).
  change (get_torrents (with_year m y1)) with (get_torrents m).
  change (get_torrents (with_year m y2)) with (get_torrents m).
  change (get_title (with_year m y1)) with (get_title m).
  change (get_title (with_year m y2)) with (get_title m).
  change (get_year (with_year m y1)) with y1.
  change (get_year (with_year m y2)) with y2.
  destruct (year_bonus_mono y1 y2
              (current_year (snd (Enhanced.listing_bonus fromisoformat m c))) Hy)
    as (H1 & _ & H3).
  destruct (year_bonus_mono y1 y2 (current_year c) Hy) as (_ & H2 & _).
  rewrite Zle_Qle in H1. rewrite Zle_Qle in H2. rewrite Zle_Qle in H3.
  repeat split; lra.
Qed.

(** X8.  Of two entries that differ in the listing timestamp only, both
    timestamps parsing, the one listed longer ago does not score higher, in
    [enhanced_movie_notifier.py] and in [interactive_movie_bot.py]. *)
Theorem score_antitone_in_listing_age
  (m : movie) (s1 s2 : string) (d1 d2 : datetime) (c : clock) :
  s1 ≠ EmptyString → s2 ≠ EmptyString →
  fromisoformat (Str.replace_Z s1) = Some d1 →
  fromisoformat (Str.replace_Z s2) = Some d2 →
  elapsed c d1 ≤ elapsed c d2 →
  (result (Enhanced.calculate_movie_score fromisoformat (with_date m s2)) c
   <= result (Enhanced.calculate_movie_score fromisoformat (with_date m s1)) c)%Q
  ∧ (result (Interactive.calculate_movie_score fromisoformat (with_date m s2)) c
     <= result (Interactive.calculate_movie_score fromisoformat (with_date m s1)) c)%Q.
Proof.
  intros Hs1 Hs2 Hp1 Hp2 He.
  rewrite !calculate_movie_score_sum, !interactive_score_sum. unfold result.
  rewrite (listing_bonus_parsed _ (with_date m s1) c s1 d1 eq_refl Hs1 Hp1).
  rewrite (listing_bonus_parsed _ (with_date m s2) c s2 d2 eq_refl Hs2 Hp2).
  simpl.
  change (get_rating (with_date m s1)) with (get_rating m).
  change (get_rating (with_date m s2)) with (get_rating m).
  change (get_year (with_date m s1)) with (get_year m).
  change (get_year (with_date m s2)) with (get_year m).
  change (get_genres (with_date m s1)) with (get_genres m).
  change (get_genres (with_date m s2)) with (get_genres m).
  change (get_torrents (with_date m s1)) with (get_torrents m).
  change (get_torrents (with_date m s2)) with (get_torrents m).
  change (get_title (with_date m s1)) with (get_title m).
  change (get_title (with_date m s2)) with (get_title m).
  pose proof (recency_tier_antitone _ _ He) as Ht. rewrite Zle_Qle in Ht.
  split; lra.
Qed.

(** X9.  Raising the seed count of one distribution variant does not lower
    the score of [interactive_movie_bot.py] either. *)
Theorem interactive_score_monotone_in_seeds
  (m : movie) (ts : list torrent) (i : nat) (t : torrent) (v : Z) (c : clock) :
  torrents m = Some ts → ts !! i = Some t → get_seeds t < v →
  (result (Interactive.calculate_movie_score fromisoformat m) c
   <= result (Interactive.calculate_movie_score fromisoformat
                (with_torrents m (<[i := with_seeds t v]> ts))) c)%Q.
Proof.
  intros Hts Hi Hv.
  destruct (torrent_bonus_mono ts i t v Hi Hv) as [_ Hb].
  change Basic.torrent_bonus with Interactive.torrent_bonus in Hb.
  rewrite Zle_Qle in Hb. rewrite !interactive_score_sum.
  set (ts' := <[i := with_seeds t v]> ts) in *.
  change (Enhanced.listing_bonus fromisoformat (with_torrents m ts') c)
    with (Enhanced.listing_bonus fromisoformat m c).
  change (result (Enhanced.listing_bonus fromisoformat (with_torrents m ts')) c)
    with (result (Enhanced.listing_bonus fromisoformat m) c).
  unfold get_torrents at 1. rewrite Hts. simpl.
  change (get_rating (with_torrents m ts')) with (get_rating m).
  change (get_year (with_torrents m ts')) with (get_year m).
  change (get_genres (with_torrents m ts')) with (get_genres m).
  change (get_title (with_torrents m ts')) with (get_title m).
  change (get_torrents (with_torrents m ts')) with ts'.
  lra.
Qed.

End ScorersMore.

Lemma score_monotone_in_year_witness :
  (result (Enhanced.calculate_movie_score Iso.fromisoformat
             (with_year Sample.horror 2023))
          (Sample.clock_from Sample.t_now)
   <= result (Enhanced.calculate_movie_score Iso.fromisoformat
                (with_year Sample.horror 2025))
             (Sample.clock_from Sample.t_now))%Q.
Proof.
  apply (score_monotone_in_year Iso.fromisoformat Sample.horror 2023 2025
           (Sample.clock_from Sample.t_now)).
  vm_compute. discriminate.
Defined.

Lemma score_antitone_in_listing_age_witness :
  (result (Interactive.calculate_movie_score Iso.fromisoformat Sample.horror_old)
          (Sample.clock_from Sample.t_now)
   <= result (Interactive.calculate_movie_score Iso.fromisoformat Sample.horror)
             (Sample.clock_from Sample.t_now))%Q.
Proof.
  assert (Iso.fromisoformat (Str.replace_Z "2025-06-20 10:36:40")
          = Some {| wall := 1750415800000000; tzinfo := None |}) as Hnew
    by (vm_compute; reflexivity).
  assert (Iso.fromisoformat (Str.replace_Z "2025-06-12 04:36:40")
          = Some {| wall := 1749703000000000; tzinfo := None |}) as Hold
    by (vm_compute; reflexivity).
  apply (score_antitone_in_listing_age Iso.fromisoformat Sample.horror
           "2025-06-20 10:36:40"%string "2025-06-12 04:36:40"%string _ _
           (Sample.clock_from Sample.t_now)
           ltac:(discriminate) ltac:(discriminate) Hnew Hold).
  vm_compute. discriminate.
Defined.

Lemma interactive_score_monotone_in_seeds_witness :
  (result (Interactive.calculate_movie_score Iso.fromisoformat Sample.horror)
          (Sample.clock_from Sample.t_now)
   <= result (Interactive.calculate_movie_score Iso.fromisoformat
                (with_torrents Sample.horror Sample.popular_variants))
             (Sample.clock_from Sample.t_now))%Q.
Proof.
  apply (interactive_score_monotone_in_seeds Iso.fromisoformat Sample.horror
           [ mkTorrent (Some "720p") (Some "1.1 GB") (Some 120);
             mkTorrent (Some "1080p") (Some "2.2 GB") None ]
           1%nat (mkTorrent (Some "1080p") (Some "2.2 GB") None) 500
           (Sample.clock_from Sample.t_now)); reflexivity.
Defined.

(** ** Fetching: [get_latest_movies] *)

Section FetchMore.

Lemma id_in_spec (movies : list movie) (x : movie) :
  Notifier.id_in movies x = true ↔ id_key x ∈ id_keys movies.
Proof.
  unfold Notifier.id_in, py_eq, id_keys. rewrite existsb_exists. split.
  - intros (m & Hm & He). apply bool_decide_eq_true in He.
    apply list_elem_of_fmap. exists m. split; [by symmetry|by apply list_elem_of_In].
  - intros (m & He & Hm)%list_elem_of_fmap. exists m.
    split; [by apply list_elem_of_In|]. apply bool_decide_eq_true. by symmetry.
Qed.

Lemma add_missing_spec (found : list movie) : ∀ movies : list movie,
  ∃ added : list movie,
    Notifier.add_missing movies found = movies ++ added
    ∧ sublist added found
    ∧ (∀ x, x ∈ found → id_key x ∈ id_keys (movies ++ added))
    ∧ (∀ x, x ∈ added → id_key x ∉ id_keys movies)
    ∧ (NoDup (id_keys movies) → NoDup (id_keys (movies ++ added))).
Proof.
  induction found as [|x rest IH]; intros movies; simpl.
  - exists []. rewrite app_nil_r. repeat split; try done.
    + intros x Hx. by apply elem_of_nil in Hx.
    + intros x Hx. by apply elem_of_nil in Hx.
  - destruct (Notifier.id_in movies x) eqn:Hin.
    + destruct (IH movies) as (added & E & S & C & F & N).
      exists added. repeat split; try done.
      * by apply sublist_cons.
      * intros y Hy. apply elem_of_cons in Hy as [->|Hy]; [|by apply C].
        apply id_in_spec in Hin. unfold id_keys in *. rewrite fmap_app.
        apply elem_of_app. by left.
    + destruct (IH (movies ++ [x])) as (added & E & S & C & F & N).
      assert (id_key x ∉ id_keys movies) as Hx.
      { intros H. apply id_in_spec in H. congruence. }
      exists (x :: added). rewrite E, <- app_assoc. simpl.
      repeat split.
      * by apply sublist_skip.
      * intros y Hy. apply elem_of_cons in Hy as [->|Hy].
        -- unfold id_keys. rewrite fmap_app. apply elem_of_app. right. by left.
        -- pose proof (C y Hy) as Hc. by rewrite <- app_assoc in Hc.
      * intros y Hy. apply elem_of_cons in Hy as [->|Hy]; [exact Hx|].
        intros H. apply (F y Hy). unfold id_keys in *. rewrite fmap_app.
        apply elem_of_app. by left.
      * intros Hn. rewrite <- app_assoc in N. apply N.
        unfold id_keys in *. rewrite fmap_app. apply NoDup_app.
        repeat split; [exact Hn| |apply NoDup_singleton].
        intros k Hk Hk'. apply list_elem_of_singleton in Hk' as ->.
        contradiction.
Qed.

(** X10.  When both requests answer 200, [get_latest_movies] returns the
    latest movies followed by some of the search results, in their order:
    those whose identifier was not yet in the list.  So every identifier of
    a search result is in the list, and if the identifiers of the latest
    movies are pairwise distinct, so are those of the whole list. *)
Theorem get_latest_movies_merges (movies found : list movie) :
  ∃ added : list movie,
    Notifier.get_latest_movies (Response 200 movies) (Response 200 found)
    = movies ++ added
    ∧ sublist added found
    ∧ (∀ x, x ∈ found → id_key x ∈ id_keys (movies ++ added))
    ∧ (∀ x, x ∈ added → id_key x ∉ id_keys movies)
    ∧ (NoDup (id_keys movies) → NoDup (id_keys (movies ++ added))).
Proof. simpl. apply add_missing_spec. Qed.

(** X11.  [get_latest_movies] returns a non-empty list only if the first
    request answered 200 and the search request raised nothing; the list
    then starts with the movies of the first reply.  In particular an
    exception in the search request loses the latest movies as well. *)
Theorem get_latest_movies_nonempty (latest search : response) :
  Notifier.get_latest_movies latest search ≠ [] →
  ∃ movies rest,
    latest = Response 200 movies
    ∧ search ≠ Raised
    ∧ Notifier.get_latest_movies latest search = movies ++ rest.
Proof.
  unfold Notifier.get_latest_movies.
  destruct latest as [|status movies]; [done|].
  destruct (Z.eqb_spec status 200) as [->|_]; [|done].
  destruct search as [|search_status found]; [done|].
  intros _. destruct (search_status =? 200).
  - destruct (add_missing_spec found movies) as (added & E & _).
    exists movies, added. by rewrite E.
  - exists movies, []. by rewrite app_nil_r.
Qed.

Lemma get_latest_movies_nonempty_witness :
  ∃ movies rest,
    Response 200 [Sample.quiet] = Response 200 movies
    ∧ Response 200 [Sample.quiet; Sample.horror] ≠ Raised
    ∧ Notifier.get_latest_movies (Response 200 [Sample.quiet])
        (Response 200 [Sample.quiet; Sample.horror]) = movies ++ rest.
Proof.
  apply (get_latest_movies_nonempty (Response 200 [Sample.quiet])
           (Response 200 [Sample.quiet; Sample.horror])).
  vm_compute. discriminate.
Defined.

End FetchMore.

(** ** One polling cycle: [check_and_notify] *)

Section CycleMore.

Variable fromisoformat : string → option datetime.
Variable cfg : config.

(** The early returns of [check_and_notify] skip steps that would do
    nothing: the cycle is the filter followed by the novelty tracker. *)
Lemma check_and_notify_result
  (movies : list ref) (h : heap) (known : gset pykey) (c : clock) :
  result (Notifier.check_and_notify fromisoformat cfg movies h known) c
  = (fst (Enhanced.get_new_movies
            (map (snd (result (Enhanced.filter_high_rated_movies fromisoformat
                                 cfg movies h) c))
                 (fst (result (Enhanced.filter_high_rated_movies fromisoformat
                                 cfg movies h) c)))
            known),
     snd (result (Enhanced.filter_high_rated_movies fromisoformat cfg movies h) c),
     snd (Enhanced.get_new_movies
            (map (snd (result (Enhanced.filter_high_rated_movies fromisoformat
                                 cfg movies h) c))
                 (fst (result (Enhanced.filter_high_rated_movies fromisoformat
                                 cfg movies h) c)))
            known)).
Proof.
  unfold Notifier.check_and_notify. destruct movies as [|r rest]; [reflexivity|].
  unfold result, bind, ret.
  destruct (Enhanced.filter_high_rated_movies _ _ _ _ _) as [[out h'] c'].
  simpl. destruct out as [|r' out]; [reflexivity|].
  by destruct (Enhanced.get_new_movies _ _) as [new known'].
Qed.

Lemma StronglySorted_map {A B : Type} (R : relation B) (f : A → B) (l : list A) :
  StronglySorted (λ a b, R (f a) (f b)) l → StronglySorted R (map f l).
Proof.
  induction 1 as [|x l _ IH Hx]; simpl; constructor; [exact IH|].
  by apply Forall_fmap.
Qed.

Lemma StronglySorted_sublist {A : Type} (R : relation A) (l1 l2 : list A) :
  sublist l1 l2 → StronglySorted R l2 → StronglySorted R l1.
Proof.
  induction 1 as [|x l1 l2 Hs IH|x l1 l2 Hs IH]; intros H2; [done|..].
  - apply StronglySorted_cons in H2 as [Hx H2]. constructor; [by apply IH|].
    rewrite Forall_forall in *. intros y Hy. apply Hx.
    exact (sublist_elem _ _ y Hs Hy).
  - apply StronglySorted_cons in H2 as [_ H2]. by apply IH.
Qed.

Lemma id_without_score (m m' : movie) :
  without_score m = without_score m' → get_id m = get_id m'.
Proof. intros H. apply (f_equal id) in H. simpl in H. unfold get_id. by rewrite H. Qed.

(** X12.  The movies one cycle hands to [send_notification] are entries of
    the fetched list that pass the admission filter and carry a score; their
    identifiers are truthy, pairwise distinct and were not known before;
    they are sent in descending order of score, then rating; and
    [known_movies] grows by exactly their identifiers. *)
Theorem cycle_notifies
  (movies : list ref) (h : heap) (known : gset pykey) (c : clock) :
  let out := result (Notifier.check_and_notify fromisoformat cfg movies h known) c in
  snd out = list_to_set (id_keys (fst (fst out))) ∪ known
  ∧ NoDup (id_keys (fst (fst out)))
  ∧ (∀ m, m ∈ fst (fst out) →
          truthy (get_id m) = true
          ∧ (id_key m ∉ known)
          ∧ admitted cfg m = true
          ∧ is_Some (_score m)
          ∧ ∃ r, r ∈ movies ∧ m = snd (fst out) r)
  ∧ StronglySorted (λ a b, ranks_before (movie_key a) (movie_key b))
                   (fst (fst out)).
Proof.
  intros out. subst out. rewrite check_and_notify_result. simpl.
  rewrite filter_high_rated_movies_result. simpl.
  destruct (filter_loop_spec fromisoformat cfg movies h c) as (K & W & _ & Sc).
  set (kept := fst (result (Enhanced.filter_loop fromisoformat cfg movies h) c)) in *.
  set (h' := snd (result (Enhanced.filter_loop fromisoformat cfg movies h) c)) in *.
  set (ranked := list_sort_reverse (Enhanced.sort_key h') kept).
  destruct (get_new_movies_spec (map h' ranked) known) as (E & N & F & T & S).
  split; [exact E|]. split; [exact N|]. split.
  - intros m Hm. rewrite Forall_forall in T.
    pose proof (sublist_elem _ _ m S Hm) as Hin.
    apply list_elem_of_fmap in Hin as (r & -> & Hr).
    unfold ranked in Hr. rewrite list_sort_reverse_perm in Hr.
    split; [by apply T|]. split.
    { apply F. apply list_elem_of_fmap. by exists (h' r). }
    assert (r ∈ movies ∧ admitted cfg (h r) = true) as [Hrm Hra].
    { rewrite K in Hr. apply list_elem_of_In, filter_In in Hr as [Hr1 Hr2].
      split; [by apply list_elem_of_In | exact Hr2]. }
    split; [by rewrite (admitted_without_score cfg _ _ (W r))|].
    split; [by apply Sc|]. by exists r.
  - apply (StronglySorted_sublist _ _ _ S), StronglySorted_map.
    apply (list_sort_reverse_sorted (Enhanced.sort_key h') kept).
Qed.

(** X13.  A second cycle on a catalogue whose entries are the same up to
    ['_score'], at whatever time it runs, sends nothing and leaves
    [known_movies] as the first cycle left it. *)
Theorem second_cycle_silent
  (movies : list ref) (h h2 : heap) (known : gset pykey) (c c2 : clock) :
  (∀ r, without_score (h2 r) = without_score (h r)) →
  fst (fst (result (Notifier.check_and_notify fromisoformat cfg movies h2
              (snd (result (Notifier.check_and_notify fromisoformat cfg
                              movies h known) c))) c2)) = []
  ∧ snd (result (Notifier.check_and_notify fromisoformat cfg movies h2
           (snd (result (Notifier.check_and_notify fromisoformat cfg
                           movies h known) c))) c2)
    = snd (result (Notifier.check_and_notify fromisoformat cfg movies h known) c).
Proof.
  intros Hsame. rewrite !check_and_notify_result. simpl.
  rewrite !filter_high_rated_movies_result. simpl.
  destruct (filter_loop_spec fromisoformat cfg movies h c) as (K & W & _).
  destruct (filter_loop_spec fromisoformat cfg movies h2 c2) as (K2 & W2 & _).
  set (kept := fst (result (Enhanced.filter_loop fromisoformat cfg movies h) c)) in *.
  set (h' := snd (result (Enhanced.filter_loop fromisoformat cfg movies h) c)) in *.
  set (kept2 := fst (result (Enhanced.filter_loop fromisoformat cfg movies h2) c2)) in *.
  set (h2' := snd (result (Enhanced.filter_loop fromisoformat cfg movies h2) c2)) in *.
  set (first := map h' (list_sort_reverse (Enhanced.sort_key h') kept)).
  rewrite (get_new_movies_all_known
             (map h2' (list_sort_reverse (Enhanced.sort_key h2') kept2))
             (snd (Enhanced.get_new_movies first known))); [by split|].
  intros m Hm Ht. apply list_elem_of_fmap in Hm as (r & -> & Hr).
  rewrite list_sort_reverse_perm, K2 in Hr.
  apply list_elem_of_In, filter_In in Hr as [Hr1 Hr2].
  rewrite (admitted_without_score cfg _ _ (Hsame r)) in Hr2.
  assert (without_score (h2' r) = without_score (h' r)) as Hw
    by (by rewrite W2, Hsame, W).
  unfold id_key in *. rewrite (id_without_score _ _ Hw) in *.
  apply (get_new_movies_records first known (h' r)); [|exact Ht].
  apply list_elem_of_fmap. exists r. split; [reflexivity|].
  rewrite list_sort_reverse_perm, K. apply list_elem_of_In, filter_In. by split.
Qed.

End CycleMore.

Lemma second_cycle_silent_witness :
  fst (fst (result (Notifier.check_and_notify Iso.fromisoformat Enhanced.defaults
              [0%nat; 1%nat] Sample.shelf
              (snd (result (Notifier.check_and_notify Iso.fromisoformat
                              Enhanced.defaults [0%nat; 1%nat] Sample.shelf ∅)
                           (Sample.clock_from Sample.t_now))))
           (Sample.clock_from Sample.t_later))) = [].
Proof.
  apply (second_cycle_silent Iso.fromisoformat Enhanced.defaults [0%nat; 1%nat]
           Sample.shelf Sample.shelf ∅ (Sample.clock_from Sample.t_now)
           (Sample.clock_from Sample.t_later)).
  intros r. reflexivity.
Defined.

(** ** The ratings of an OMDb reply *)

Section RatingsMore.

Lemma ratings_of_snoc (l : list omdb_rating) (r : omdb_rating) :
  Notifier.ratings_of (l ++ [r])
  = if negb (String.eqb (default EmptyString (Source r)) "")
       && negb (String.eqb (default EmptyString (Value r)) "")
    then <[ default EmptyString (Source r) := default EmptyString (Value r) ]>
           (Notifier.ratings_of l)
    else Notifier.ratings_of l.
Proof. unfold Notifier.ratings_of. by rewrite foldl_app. Qed.

Lemma nonempty_true (s : string) :
  negb (String.eqb s "") = true ↔ s ≠ EmptyString.
Proof. rewrite negb_true_iff. apply String.eqb_neq. Qed.

(** X14.  The dict [get_omdb_rating] builds from the list ['Ratings'] maps
    a source to a value only if both are non-empty strings of one element of
    the list; and the value it holds for a source is that of the last
    element naming this source with a non-empty value. *)
Theorem ratings_of_lookup (l : list omdb_rating) :
  (∀ s v, Notifier.ratings_of l !! s = Some v →
          s ≠ EmptyString ∧ v ≠ EmptyString
          ∧ ∃ r, r ∈ l ∧ Source r = Some s ∧ Value r = Some v)
  ∧ (∀ l1 r l2 s v,
       l = l1 ++ r :: l2 →
       Source r = Some s → Value r = Some v →
       s ≠ EmptyString → v ≠ EmptyString →
       (∀ r', r' ∈ l2 → Source r' = Some s →
              default EmptyString (Value r') = EmptyString) →
       Notifier.ratings_of l !! s = Some v).
Proof.
  split.
  - induction l as [|r l IH] using rev_ind; intros s v.
    + unfold Notifier.ratings_of. simpl. by rewrite lookup_empty.
    + rewrite ratings_of_snoc.
      destruct (negb (String.eqb (default EmptyString (Source r)) "")
                && negb (String.eqb (default EmptyString (Value r)) "")) eqn:Hq.
      * apply andb_true_iff in Hq as [Hs Hv].
        apply nonempty_true in Hs, Hv.
        destruct (decide (default EmptyString (Source r) = s)) as [<-|Hne].
        -- rewrite lookup_insert_eq. intros [= <-].
           split; [exact Hs|]. split; [exact Hv|]. exists r.
           split; [apply elem_of_app; right; by left|].
           destruct (Source r), (Value r); simpl in *; done.
        -- rewrite lookup_insert_ne by exact Hne. intros H.
           destruct (IH s v H) as (Hs' & Hv' & r' & Hr' & Hsv).
           split; [exact Hs'|]. split; [exact Hv'|]. exists r'.
           split; [apply elem_of_app; by left | exact Hsv].
      * intros H. destruct (IH s v H) as (Hs' & Hv' & r' & Hr' & Hsv).
        split; [exact Hs'|]. split; [exact Hv'|]. exists r'.
        split; [apply elem_of_app; by left | exact Hsv].
  - intros l1 r l2. revert l. induction l2 as [|r' l2 IH] using rev_ind;
      intros l s v -> Hs Hv Hse Hve Hlast.
    + rewrite ratings_of_snoc, Hs, Hv. simpl.
      rewrite (proj2 (nonempty_true s) Hse), (proj2 (nonempty_true v) Hve).
      simpl. apply lookup_insert_eq.
    + change (l1 ++ r :: l2 ++ [r']) with (l1 ++ (r :: l2) ++ [r']).
      rewrite app_assoc, ratings_of_snoc.
      assert (Notifier.ratings_of (l1 ++ r :: l2) !! s = Some v) as Hprev.
      { apply (IH _ s v eq_refl Hs Hv Hse Hve). intros r0 Hr0.
        apply Hlast. apply elem_of_app. by left. }
      destruct (negb (String.eqb (default EmptyString (Source r')) "")
                && negb (String.eqb (default EmptyString (Value r')) "")) eqn:Hq;
        [|exact Hprev].
      apply andb_true_iff in Hq as [Hs' Hv']. apply nonempty_true in Hs', Hv'.
      destruct (decide (default EmptyString (Source r') = s)) as [He|Hne].
      * exfalso. apply Hv'. apply Hlast; [apply elem_of_app; right; by left|].
        destruct (Source r'); simpl in *; [by subst | congruence].
      * by rewrite lookup_insert_ne.
Qed.

End RatingsMore.

(** ** Titles *)

Section TitlesMore.

Lemma prefix_trans (q p s : string) :
  String.prefix q p = true → String.prefix p s = true → String.prefix q s = true.
Proof.
  revert p s. induction q as [|a q IH]; intros p s Hqp Hps; [by destruct s|].
  destruct p as [|b p]; [discriminate|]. destruct s as [|c s]; [discriminate|].
  simpl in *. destruct (ascii_dec a b) as [->|]; [|discriminate].
  destruct (ascii_dec b c) as [->|]; [|discriminate].
  destruct (ascii_dec c c); [|done]. by apply (IH p s).
Qed.

Lemma contains_tail (q : string) (c : ascii) (s : string) :
  Str.contains q s = true → Str.contains q (String c s) = true.
Proof. intros H. simpl. rewrite H. apply orb_true_r. Qed.

Lemma contains_of_prefix (q p : string) : ∀ s,
  Str.contains q p = true → String.prefix p s = true → Str.contains q s = true.
Proof.
  induction p as [|b p IH]; intros s Hq Hp.
  - simpl in Hq. rewrite orb_false_r in Hq. destruct q; [|discriminate].
    by destruct s.
  - destruct s as [|c s]; [discriminate|].
    simpl in Hp. destruct (ascii_dec b c) as [->|]; [|discriminate].
    simpl in Hq. apply orb_true_iff in Hq as [Hq|Hq].
    + change (Str.contains q (String c s))
        with (String.prefix q (String c s) || Str.contains q s).
      apply orb_true_iff. left.
      apply (prefix_trans q (String c p)); [exact Hq|].
      simpl. destruct (ascii_dec c c); [exact Hp | done].
    + apply contains_tail. by apply IH.
Qed.

(** A substring of a substring is a substring. *)
Lemma contains_trans (q p : string) : ∀ s,
  Str.contains q p = true → Str.contains p s = true → Str.contains q s = true.
Proof.
  induction s as [|c s IH]; intros Hq Hp.
  - simpl in Hp. rewrite orb_false_r in Hp. by apply (contains_of_prefix q p).
  - change (Str.contains p (String c s))
      with (String.prefix p (String c s) || Str.contains p s) in Hp.
    apply orb_true_iff in Hp as [Hp|Hp].
    + by apply (contains_of_prefix q p).
    + apply contains_tail. by apply IH.
Qed.

(** X15.  In [enhanced_movie_notifier.py] the famous pattern ['par'] matches
    inside the sequel indicator ['part']: every title that contains "part",
    in any case, gets the 20 points for sequels and the 25 points for famous
    titles as well, 45 at least. *)
Theorem part_counts_as_famous (t : string) :
  Str.contains "part" (Str.lower t) = true → 45 ≤ Enhanced.title_bonus t.
Proof.
  intros Hpart. unfold Enhanced.title_bonus.
  assert (Str.any_in Enhanced.famous_patterns (Str.lower t) = true) as ->.
  { unfold Str.any_in. apply existsb_exists. exists "par"%string. split.
    - unfold Enhanced.famous_patterns. simpl. tauto.
    - by apply (contains_trans "par" "part"). }
  assert (Str.any_in Enhanced.sequel_indicators (Str.lower t) = true) as ->.
  { unfold Str.any_in. apply existsb_exists. exists "part"%string.
    split; [|exact Hpart]. unfold Enhanced.sequel_indicators. simpl. tauto. }
  repeat case_match; lia.
Qed.

Lemma part_counts_as_famous_witness :
  45 ≤ Enhanced.title_bonus "Department Q".
Proof.
  apply (part_counts_as_famous "Department Q"). reflexivity.
Defined.

End TitlesMore.
